(** * Telegram weather bot: session handling and location persistence

    A shallow embedding of [bot.py].  Python values read from JSON are
    modelled by the inductive [json]; every call that leaves the process
    (geocoder, weather service, the [user_data.json] file, the Telegram
    transport) and every access to the global [user_states] dictionary is
    an operation of a small free monad [Prog]; handlers are programs in
    that monad and are interpreted over a [World] by [run].

    Modelling conventions:
    - text is a [string] holding the UTF-8 bytes of a Python [str];
      [strip] removes the characters of every script that Python
      counts as whitespace; [capitalize] is the interpreter's
      ([PyRuntime]), of which only its effect on ASCII text is used;
    - Python floats are exact rationals ([Q]); [round2] is [round(x, 2)]
      on them (nearest hundredth, ties to even);
    - [logger] calls have no effect on control flow and are left out;
    - [bot.send_message] and [bot.answer_callback_query] do not raise;
    - the transport library hands over updates already classified
      ([Update]) and may run two handlers on two worker threads, whose
      operations then interleave ([interleave]). *)

From Stdlib Require Import ZArith QArith Qabs String Ascii List Bool Lia.
From stdpp Require Import base gmap strings list pretty.
Import ListNotations.
Local Open Scope string_scope.
Local Open Scope Z_scope.
Set Warnings "-register-all".

(** ** Python text *)

Module PyStr.

(** Text is held as its UTF-8 bytes.  The characters for which
    [str.isspace] holds, and which [str.strip] removes, are U+0009 to
    U+000D, U+001C to U+0020, U+0085, U+00A0, U+1680, U+2000 to U+200A,
    U+2028, U+2029, U+202F, U+205F and U+3000; in UTF-8 they take one,
    two or three bytes. *)
Definition is_space (c : ascii) : bool :=
  let n := nat_of_ascii c in
  ((9 <=? n)%nat && (n <=? 13)%nat) || ((28 <=? n)%nat && (n <=? 32)%nat).

(** U+0085 and U+00A0: C2 85 and C2 A0. *)
Definition is_space2 (a b : ascii) : bool :=
  let x := nat_of_ascii a in
  let y := nat_of_ascii b in
  (x =? 194)%nat && ((y =? 133)%nat || (y =? 160)%nat).

(** U+1680: E1 9A 80.  U+2000 to U+200A, U+2028, U+2029, U+202F:
    E2 80 80 to E2 80 8A, E2 80 A8, E2 80 A9, E2 80 AF.  U+205F:
    E2 81 9F.  U+3000: E3 80 80. *)
Definition is_space3 (a b c : ascii) : bool :=
  let x := nat_of_ascii a in
  let y := nat_of_ascii b in
  let z := nat_of_ascii c in
  ((x =? 225)%nat && (y =? 154)%nat && (z =? 128)%nat)
  || ((x =? 226)%nat && (y =? 128)%nat &&
      (((128 <=? z)%nat && (z <=? 138)%nat)
       || (z =? 168)%nat || (z =? 169)%nat || (z =? 175)%nat))
  || ((x =? 226)%nat && (y =? 129)%nat && (z =? 159)%nat)
  || ((x =? 227)%nat && (y =? 128)%nat && (z =? 128)%nat).

(** The string without the characters at its front that one of the
    three tests accepts. *)
Fixpoint skip (p1 : ascii -> bool) (p2 : ascii -> ascii -> bool)
    (p3 : ascii -> ascii -> ascii -> bool) (s : string) : string :=
  match s with
  | EmptyString => s
  | String a s1 =>
      if p1 a then skip p1 p2 p3 s1
      else
        match s1 with
        | EmptyString => s
        | String b s2 =>
            if p2 a b then skip p1 p2 p3 s2
            else
              match s2 with
              | EmptyString => s
              | String c s3 => if p3 a b c then skip p1 p2 p3 s3 else s
              end
        end
  end.

(** The string starts with a character one of the tests accepts. *)
Definition starts (p1 : ascii -> bool) (p2 : ascii -> ascii -> bool)
    (p3 : ascii -> ascii -> ascii -> bool) (s : string) : bool :=
  match s with
  | EmptyString => false
  | String a s1 =>
      p1 a ||
      match s1 with
      | EmptyString => false
      | String b s2 =>
          p2 a b ||
          match s2 with
          | EmptyString => false
          | String c _ => p3 a b c
          end
      end
  end.

(** The string consists of such characters only. *)
Fixpoint only (p1 : ascii -> bool) (p2 : ascii -> ascii -> bool)
    (p3 : ascii -> ascii -> ascii -> bool) (s : string) : bool :=
  match s with
  | EmptyString => true
  | String a s1 =>
      if p1 a then only p1 p2 p3 s1
      else
        match s1 with
        | EmptyString => false
        | String b s2 =>
            if p2 a b then only p1 p2 p3 s2
            else
              match s2 with
              | EmptyString => false
              | String c s3 => p3 a b c && only p1 p2 p3 s3
              end
        end
  end.

(** [s.lstrip()] *)
Definition lstrip (s : string) : string := skip is_space is_space2 is_space3 s.

(** [s.rstrip()]: the same from the end, where the bytes of a character
    are met last byte first. *)
Definition rstrip (s : string) : string :=
  String.rev
    (skip is_space (fun b a => is_space2 a b) (fun c b a => is_space3 a b c)
       (String.rev s)).

(** [s.strip()] *)
Definition strip (s : string) : string := rstrip (lstrip s).

Definition upper_char (c : ascii) : ascii :=
  let n := nat_of_ascii c in
  if ((97 <=? n)%nat && (n <=? 122)%nat) then ascii_of_nat (n - 32) else c.

Definition lower_char (c : ascii) : ascii :=
  let n := nat_of_ascii c in
  if ((65 <=? n)%nat && (n <=? 90)%nat) then ascii_of_nat (n + 32) else c.

Fixpoint lower (s : string) : string :=
  match s with
  | EmptyString => EmptyString
  | String c s' => String (lower_char c) (lower s')
  end.

(** What [s.capitalize()] does to ASCII text: the first character is
    upper-cased and the others are lower-cased. *)
Definition capitalize_ascii (s : string) : string :=
  match s with
  | EmptyString => EmptyString
  | String c s' => String (upper_char c) (lower s')
  end.

(** Every byte is below 128. *)
Fixpoint is_ascii (s : string) : bool :=
  match s with
  | EmptyString => true
  | String c s' => (nat_of_ascii c <? 128)%nat && is_ascii s'
  end.

(** A byte that continues a character: [10xxxxxx]. *)
Definition is_continuation (c : ascii) : bool :=
  let n := nat_of_ascii c in
  (128 <=? n)%nat && (n <? 192)%nat.

(** The characters of [s] after the bytes [cur] of a character that has
    begun. *)
Fixpoint chars_from (cur : string) (s : string) : list string :=
  match s with
  | EmptyString => [cur]
  | String c s' =>
      if is_continuation c then chars_from (cur ++ String c EmptyString) s'
      else cur :: chars_from (String c EmptyString) s'
  end.

(** The characters of a text, each a string of one to four bytes. *)
Definition chars (s : string) : list string :=
  match s with
  | EmptyString => []
  | String c s' => chars_from (String c EmptyString) s'
  end.

Fixpoint startswith (p s : string) : bool :=
  match p, s with
  | EmptyString, _ => true
  | String a p', String b s' => Ascii.eqb a b && startswith p' s'
  | String _ _, EmptyString => false
  end.

(** [needle in hay] for two strings. *)
Fixpoint contains (needle hay : string) : bool :=
  startswith needle hay ||
  match hay with
  | EmptyString => false
  | String _ hay' => contains needle hay'
  end.

(** [sep.join(parts)] *)
Fixpoint join (sep : string) (parts : list string) : string :=
  match parts with
  | [] => ""
  | [p] => p
  | p :: rest => p ++ sep ++ join sep rest
  end.

Definition NL : string := String (ascii_of_nat 10) EmptyString.

(** A literal given by its bytes in the source file. *)
Definition bytes (l : list nat) : string :=
  string_of_list_ascii (map ascii_of_nat l).

End PyStr.

(** [str.capitalize] maps letters of every script, by the case tables of
    the interpreter's Unicode version.  The bot takes it from the
    runtime; what is known of it here is what it does to ASCII text and
    to a first character that is ASCII. *)
Class PyRuntime : Type := {
  str_capitalize : string -> string;
  str_capitalize_ascii :
    forall s, PyStr.is_ascii s = true ->
              str_capitalize s = PyStr.capitalize_ascii s;
  str_capitalize_first :
    forall c tail, (nat_of_ascii c < 128)%nat ->
      exists tail', str_capitalize (String c tail) =
                    String (PyStr.upper_char c) tail'
}.

(** ** JSON values as Python objects *)

Inductive json : Type :=
| JNull
| JBool (b : bool)
| JInt (z : Z)
| JFloat (q : Q)
| JStr (s : string)
| JArr (items : list json)
| JObj (members : list (string * json)).

Inductive Exn : Type :=
| KeyError | TypeError | AttributeError | IndexError
| JSONDecodeError | FileNotFoundError
| RequestException | GeocoderError | OtherException.

Inductive result (A : Type) : Type :=
| Ok (a : A)
| Err (e : Exn).
Arguments Ok {A} a.
Arguments Err {A} e.

Definition rbind {A B : Type} (r : result A) (f : A -> result B) : result B :=
  match r with
  | Ok a => f a
  | Err e => Err e
  end.

Notation "'let?' x ':=' r 'in' q" := (rbind r (fun x => q))
  (at level 10, x name, r at level 100, q at level 200).

Module Py.

(** Insertion-ordered dictionaries with string keys. *)
Fixpoint dict_get (k : string) (d : list (string * json)) : option json :=
  match d with
  | [] => None
  | (k', v) :: d' => if String.eqb k k' then Some v else dict_get k d'
  end.

Fixpoint dict_set (k : string) (v : json) (d : list (string * json))
  : list (string * json) :=
  match d with
  | [] => [(k, v)]
  | (k', v') :: d' =>
      if String.eqb k k' then (k', v) :: d' else (k', v') :: dict_set k v d'
  end.

Definition dict_has (k : string) (d : list (string * json)) : bool :=
  match dict_get k d with Some _ => true | None => false end.

(** [s == x] for a string [s]. *)
Definition eq_str (s : string) (x : json) : bool :=
  match x with
  | JStr s' => String.eqb s s'
  | _ => false
  end.

(** [s in x] for a string [s]. *)
Definition contains (x : json) (s : string) : result bool :=
  match x with
  | JObj d => Ok (dict_has s d)
  | JArr l => Ok (existsb (eq_str s) l)
  | JStr t => Ok (PyStr.contains s t)
  | JNull | JBool _ | JInt _ | JFloat _ => Err TypeError
  end.

(** [x[k]] for a string [k]. *)
Definition getitem (x : json) (k : string) : result json :=
  match x with
  | JObj d => match dict_get k d with Some v => Ok v | None => Err KeyError end
  | _ => Err TypeError
  end.

(** [x[k] = v] for a string [k]. *)
Definition setitem (x : json) (k : string) (v : json) : result json :=
  match x with
  | JObj d => Ok (JObj (dict_set k v d))
  | _ => Err TypeError
  end.

(** [x[0]] *)
Definition first (x : json) : result json :=
  match x with
  | JArr [] => Err IndexError
  | JArr (a :: _) => Ok a
  | JStr s =>
      match PyStr.chars s with
      | [] => Err IndexError
      | c :: _ => Ok (JStr c)
      end
  | JObj _ => Err KeyError
  | JNull | JBool _ | JInt _ | JFloat _ => Err TypeError
  end.

(** [x.get(k, default)] *)
Definition get (x : json) (k : string) (default : json) : result json :=
  match x with
  | JObj d => Ok (match dict_get k d with Some v => v | None => default end)
  | _ => Err AttributeError
  end.

(** [x.append(v)] *)
Definition append (x : json) (v : json) : result json :=
  match x with
  | JArr l => Ok (JArr (l ++ [v]))
  | _ => Err AttributeError
  end.

(** [x.capitalize()] *)
Definition capitalize {rt : PyRuntime} (x : json) : result string :=
  match x with
  | JStr s => Ok (str_capitalize s)
  | _ => Err AttributeError
  end.

(** [iter(x)], as far as the bot uses it: the elements of a list. *)
Definition elements (x : json) : result (list json) :=
  match x with
  | JArr l => Ok l
  | JStr s => Ok (map JStr (PyStr.chars s))
  | JObj d => Ok (map (fun kv => JStr (fst kv)) d)
  | JNull | JBool _ | JInt _ | JFloat _ => Err TypeError
  end.

(** Truth value of an object. *)
Definition truthy (x : json) : bool :=
  match x with
  | JNull => false
  | JBool b => b
  | JInt z => negb (z =? 0)
  | JFloat q => negb (Qeq_bool q 0)
  | JStr s => negb (String.eqb s "")
  | JArr l => match l with [] => false | _ => true end
  | JObj d => match d with [] => false | _ => true end
  end.

Definition is_dict (x : json) : bool :=
  match x with JObj _ => true | _ => false end.

Definition is_None (x : json) : bool :=
  match x with JNull => true | _ => false end.

End Py.

(** ** Collaborators and effects *)

(** What [geolocator.geocode] returns on a match. *)
Record Location : Type := {
  address : string;
  latitude : Q;
  longitude : Q
}.

(** [round(x, 2)]: the nearest multiple of 1/100, ties to the even one. *)
Definition round2 (x : Q) : Q :=
  let a := 100 * Qnum x in
  let d := Z.pos (Qden x) in
  let q := a / d in
  let r := a mod d in
  let k := match 2 * r ?= d with
           | Lt => q
           | Gt => q + 1
           | Eq => if Z.even q then q else q + 1
           end in
  k # 100.

Record InlineKeyboardButton : Type := {
  button_text : string;
  callback_data : string
}.

(** An inline keyboard is a list of rows of buttons. *)
Definition InlineKeyboardMarkup : Type := list (list InlineKeyboardButton).

(** [markup.add(b1, ..., bn)] for at most [row_width = 3] buttons. *)
Definition markup_add (markup : InlineKeyboardMarkup)
    (buttons : list InlineKeyboardButton) : InlineKeyboardMarkup :=
  (markup ++ [buttons])%list.

(** The operations a handler performs on its surroundings:
    [geolocator.geocode(query)]; [requests.get(url)] with
    [raise_for_status()] and [response.json()];
    [os.path.exists(USER_DATA_FILE)]; opening the file for writing and
    [json.dump(data, f)]; opening it for reading and [json.load(f)];
    the two calls on [bot]; reading, setting and popping an entry of
    [user_states]. *)
Inductive Op : Type :=
| Geocode (query : string)
| RequestForecast (lat lon : Q)
| PathExists
| JsonDump (data : json)
| JsonLoad
| SendMessage (chat : Z) (text : string)
    (reply_markup : option InlineKeyboardMarkup) (parse_mode : option string)
| AnswerCallbackQuery (id : string)
| StatesGet (chat : Z)
| StatesSet (chat : Z) (state : string)
| StatesPop (chat : Z).

Definition resp (o : Op) : Type :=
  match o with
  | Geocode _ => result (option Location)
  | RequestForecast _ _ => result json
  | PathExists => bool
  | JsonLoad => result json
  | StatesGet _ => option string
  | JsonDump _ | SendMessage _ _ _ _ | AnswerCallbackQuery _
  | StatesSet _ _ | StatesPop _ => unit
  end.

(** Programs: a result, a raised exception, or an operation followed by
    the rest of the program. *)
Inductive Prog (A : Type) : Type :=
| Ret (a : A)
| Raise (e : Exn)
| Do (o : Op) (k : resp o -> Prog A).
Arguments Ret {A} a.
Arguments Raise {A} e.
Arguments Do {A} o k.

Fixpoint bind {A B : Type} (p : Prog A) (f : A -> Prog B) : Prog B :=
  match p with
  | Ret a => f a
  | Raise e => Raise e
  | Do o k => Do o (fun r => bind (k r) f)
  end.

(** [try: p  except <handles>: h] *)
Fixpoint try_except {A : Type} (handles : Exn -> bool) (p : Prog A)
    (h : Exn -> Prog A) : Prog A :=
  match p with
  | Ret a => Ret a
  | Raise e => if handles e then h e else Raise e
  | Do o k => Do o (fun r => try_except handles (k r) h)
  end.

(** [except Exception] *)
Definition any_exception (e : Exn) : bool := true.

(** [except requests.RequestException] *)
Definition is_RequestException (e : Exn) : bool :=
  match e with RequestException => true | _ => false end.

Notation "'let*' x ':=' p 'in' q" := (bind p (fun x => q))
  (at level 10, x name, p at level 100, q at level 200).

Definition perform (o : Op) : Prog (resp o) := Do o Ret.

Definition lift {A : Type} (r : result A) : Prog A :=
  match r with
  | Ok a => Ret a
  | Err e => Raise e
  end.

(** ** The world a handler runs in *)

(** [user_data.json]: absent, holding text that is not valid JSON, or
    holding a JSON document.  A file that cannot be opened or whose
    bytes are not text is not among the states. *)
Inductive FileState : Type :=
| NoFile
| Unparsable
| Stored (data : json).

Record World : Type := {
  user_states : gmap Z string;
  USER_DATA_FILE : FileState
}.

(** The answers of the geocoder and of the weather service. *)
Record Env : Type := {
  nominatim : string -> result (option Location);
  openweathermap : Q -> Q -> result json
}.

Definition exec_op (env : Env) (o : Op) (w : World) : resp o * World :=
  match o return resp o * World with
  | Geocode query => (nominatim env query, w)
  | RequestForecast lat lon => (openweathermap env lat lon, w)
  | PathExists =>
      (match USER_DATA_FILE w with NoFile => false | _ => true end, w)
  | JsonDump data =>
      (tt, {| user_states := user_states w; USER_DATA_FILE := Stored data |})
  | JsonLoad =>
      (match USER_DATA_FILE w with
       | NoFile => Err FileNotFoundError
       | Unparsable => Err JSONDecodeError
       | Stored data => Ok data
       end, w)
  | SendMessage _ _ _ _ => (tt, w)
  | AnswerCallbackQuery _ => (tt, w)
  | StatesGet chat => (user_states w !! chat, w)
  | StatesSet chat state =>
      (tt, {| user_states := <[chat := state]> (user_states w);
              USER_DATA_FILE := USER_DATA_FILE w |})
  | StatesPop chat =>
      (tt, {| user_states := delete chat (user_states w);
              USER_DATA_FILE := USER_DATA_FILE w |})
  end.

(** What running a program leaves behind: the operations performed, in
    order, the world afterwards, and the value or exception. *)
Record Outcome (A : Type) : Type := {
  trace : list Op;
  final : World;
  returned : result A
}.
Arguments trace {A} _.
Arguments final {A} _.
Arguments returned {A} _.

Fixpoint run {A : Type} (env : Env) (p : Prog A) (w : World) : Outcome A :=
  match p with
  | Ret a => {| trace := []; final := w; returned := Ok a |}
  | Raise e => {| trace := []; final := w; returned := Err e |}
  | Do o k =>
      let rw := exec_op env o w in
      let out := run env (k (fst rw)) (snd rw) in
      {| trace := o :: trace out; final := final out; returned := returned out |}
  end.

(** One operation of a program, for interleaved executions. *)
Definition step {A : Type} (env : Env) (p : Prog A) (w : World)
  : Prog A * World :=
  match p with
  | Do o k => let rw := exec_op env o w in (k (fst rw), snd rw)
  | _ => (p, w)
  end.

(** Two handlers running on two worker threads of the transport library;
    the schedule says which thread performs the next operation
    ([true]: the first). *)
Fixpoint interleave (env : Env) (schedule : list bool)
    (p1 p2 : Prog unit) (w : World) : Prog unit * Prog unit * World :=
  match schedule with
  | [] => (p1, p2, w)
  | true :: rest =>
      let pw := step env p1 w in interleave env rest (fst pw) p2 (snd pw)
  | false :: rest =>
      let pw := step env p2 w in interleave env rest p1 (fst pw) (snd pw)
  end.

Definition finished {A : Type} (p : Prog A) : bool :=
  match p with
  | Do _ _ => false
  | _ => true
  end.

(** ** The bot *)

Record Message : Type := {
  chat_id : Z;
  text : string
}.

Record CallbackQuery : Type := {
  call_id : string;
  call_message : Message;
  call_data : string
}.

Definition waiting_for_weather_location : string := "waiting_for_weather_location".
Definition waiting_for_save_location : string := "waiting_for_save_location".

(** [bot.send_message(chat_id, text)] and its keyword variants. *)
Definition send_message (chat : Z) (msg : string) : Prog unit :=
  perform (SendMessage chat msg None None).

Definition send_message_markup (chat : Z) (msg : string)
    (markup : InlineKeyboardMarkup) : Prog unit :=
  perform (SendMessage chat msg (Some markup) None).

Definition send_message_mode (chat : Z) (msg : string) (mode : string)
  : Prog unit :=
  perform (SendMessage chat msg None (Some mode)).

Definition answer_callback_query (id : string) : Prog unit :=
  perform (AnswerCallbackQuery id).

(** [str(x)] as an f-string applies it.  A string is inserted as it is;
    the rendering of the other values is Python's and is a parameter
    ([str_other]) of the functions that format. *)
Definition py_format (str_other : json -> string) (x : json) : string :=
  match x with
  | JStr s => s
  | JNull => "None"
  | JBool true => "True"
  | JBool false => "False"
  | JInt z => pretty z
  | _ => str_other x
  end.

(** [location_handler(message)]: [message] is a string or a message. *)
Definition location_handler (message : string + Message)
  : Prog (option (Q * Q)) :=
  try_except any_exception
    (let location := match message with
                     | inl s => s
                     | inr m => text m
                     end in
     let* found := perform (Geocode location) in
     let* location_data := lift found in
     match location_data with
     | None => Ret None
     | Some loc =>
         let latitude := round2 (latitude loc) in
         let longitude := round2 (longitude loc) in
         Ret (Some (latitude, longitude))
     end)
    (fun _ => Ret None).

(** [get_weather(latitude, longitude)]; [None] is [JNull]. *)
Definition get_weather (latitude longitude : Q) : Prog json :=
  try_except is_RequestException
    (let* response := perform (RequestForecast latitude longitude) in
     lift response)
    (fun _ => Ret JNull).

(** The non-ASCII literals of [bot.py], byte for byte as the file has them. *)
Definition degree_sign : string :=
  PyStr.bytes [194; 172; 226; 136; 158]%nat.
Definition pin_sign : string :=
  PyStr.bytes [239; 163; 191; 195; 188; 195; 172; 195; 167]%nat.
Definition smile_sign : string :=
  PyStr.bytes [239; 163; 191; 195; 188; 195; 178; 195; 164]%nat.

Definition weather_text (str_other : json -> string)
    (description : string) (temp : json) : string :=
  "*Weather:* " ++ description ++ PyStr.NL ++
  "*Temperature:* " ++ py_format str_other temp ++ degree_sign ++ "C".

(** Lines 111-127 of [fetch_weather]: what is said about a forecast. *)
Definition report_forecast {rt : PyRuntime} (str_other : json -> string) (message : Message)
    (weather : json) : Prog unit :=
  let* data := lift (Py.get weather "list" (JArr [])) in
  if negb (Py.truthy data) then
    send_message (chat_id message) "No weather data available."
  else
    let* entry := lift (Py.first data) in
    let* info := lift (Py.get entry "weather" (JArr [])) in
    if negb (Py.truthy info) then
      send_message (chat_id message) "No weather description available."
    else
      let* info0 := lift (Py.first info) in
      let* description := lift (Py.get info0 "description" (JStr "Unknown")) in
      let* main := lift (Py.get entry "main" (JObj [])) in
      let* temp := lift (Py.get main "temp" (JStr "N/A")) in
      let* capitalized := lift (Py.capitalize description) in
      let weather_message := weather_text str_other capitalized temp in
      let* _ := send_message (chat_id message) "Here's the weather!" in
      send_message_mode (chat_id message) weather_message "Markdown".

Definition unexpected_error (message : Message) : Exn -> Prog unit :=
  fun _ =>
    send_message (chat_id message) "Sorry, an unexpected error occurred.".

Definition fetch_weather {rt : PyRuntime} (str_other : json -> string) (message : Message)
  : Prog unit :=
  try_except any_exception
    (let* location_result := location_handler (inr message) in
     match location_result with
     | None => Ret tt
     | Some (latitude, longitude) =>
         let* weather := get_weather latitude longitude in
         if Py.is_None weather then
           send_message (chat_id message)
             "Sorry, I could not retrieve the weather information."
         else report_forecast str_other message weather
     end)
    (unexpected_error message).

(** [load_user_data()] *)
Definition load_user_data : Prog json :=
  let* present := perform PathExists in
  let* _ := (if negb present then perform (JsonDump (JObj [])) else Ret tt) in
  let* loaded := perform JsonLoad in
  lift loaded.

(** [save_user_data(data)] *)
Definition save_user_data (data : json) : Prog unit :=
  perform (JsonDump data).

(** The profile a new or reset user gets. *)
Definition default_fields : list (string * json) :=
  [("locations", JArr []);
   ("preferences", JObj [("alert_frequency", JStr "daily");
                         ("temperature_unit", JStr "celsius")]);
   ("alerts_enabled", JBool true)].

Definition default_profile : json := JObj default_fields.

Definition try_again_markup : InlineKeyboardMarkup :=
  let markup := [] in
  let yes_button := {| button_text := "Yes"; callback_data := "try_again_yes" |} in
  let no_button := {| button_text := "No"; callback_data := "try_again_no" |} in
  markup_add markup [yes_button; no_button].

(** Lines 173-193 of [save_location]: the record of [user_id] is created
    when it is missing and replaced when it is not a dictionary. *)
Definition ensure_profile (user_data : json) (user_id : string) : result json :=
  let? known := Py.contains user_data user_id in
  if negb known then
    Py.setitem user_data user_id default_profile
  else
    let? record := Py.getitem user_data user_id in
    if negb (Py.is_dict record) then
      Py.setitem user_data user_id default_profile
    else Ok user_data.

(** Lines 195-197: the membership test and the append, which changes
    [user_data] in place.  The result is the changed dictionary, or
    [None] when the location is already there. *)
Definition add_location (user_data : json) (user_id location : string)
  : result (option json) :=
  let? record := Py.getitem user_data user_id in
  let? locations := Py.getitem record "locations" in
  let? present := Py.contains locations location in
  if negb present then
    let? locations' := Py.append locations (JStr location) in
    let? record' := Py.setitem record "locations" locations' in
    let? user_data' := Py.setitem user_data user_id record' in
    Ok (Some user_data')
  else Ok None.

(** Line 204: the values [user_data[user_id]["locations"]] iterates over. *)
Definition saved_items (user_data : json) (user_id : string)
  : result (list json) :=
  let? record := Py.getitem user_data user_id in
  let? locations := Py.getitem record "locations" in
  Py.elements locations.

Definition saved_text (str_other : json -> string) (locations : list json)
  : string :=
  let locations_list :=
    PyStr.join PyStr.NL (map (fun loc => pin_sign ++ " " ++ py_format str_other loc) locations) in
  "Location verified and saved successfully!" ++ PyStr.NL ++
  "Your saved locations:" ++ PyStr.NL ++ locations_list.

Definition duplicate_text (location : string) : string :=
  "Location '" ++ location ++ "' is already in your saved locations.".

Definition save_location (str_other : json -> string) (message : Message)
  : Prog unit :=
  try_except any_exception
    (let location := PyStr.strip (text message) in
     let* location_result := location_handler (inr message) in
     match location_result with
     | None =>
         send_message_markup (chat_id message)
           "This location could not be found. Would you like to try again?"
           try_again_markup
     | Some _ =>
         let* user_data := load_user_data in
         let user_id := pretty (chat_id message) in
         let* user_data := lift (ensure_profile user_data user_id) in
         let* updated := lift (add_location user_data user_id location) in
         match updated with
         | Some user_data =>
             let* _ := save_user_data user_data in
             let* items := lift (saved_items user_data user_id) in
             send_message (chat_id message) (saved_text str_other items)
         | None =>
             send_message (chat_id message) (duplicate_text location)
         end
     end)
    (fun _ =>
       send_message (chat_id message)
         "Sorry, there was an error saving your location.").

(** ** Handlers *)

Definition button (label data : string) : InlineKeyboardButton :=
  {| button_text := label; callback_data := data |}.

(** [/start] *)
Definition send_welcome (message : Message) : Prog unit :=
  let markup := [] in
  let yes_button := button "Yes" "start_yes" in
  let no_button := button "No" "start_no" in
  let markup := markup_add markup [yes_button; no_button] in
  send_message_markup (chat_id message)
    "Hi there! I'm your personal weather assistant, here to help you stay prepared for anything Mother Nature throws your way! Would you like to start using this bot?"
    markup.

Definition handle_start_yes (call : CallbackQuery) : Prog unit :=
  let chat := chat_id (call_message call) in
  let* _ := send_message chat ("Great! Let's get started. " ++ smile_sign) in
  let markup := [] in
  let weather_button := button "Get Weather" "get_weather" in
  let set_location_button := button "Set Location" "set_location" in
  let alerts_button := button "Weather Alerts" "weather_alerts" in
  let markup := markup_add markup [weather_button; set_location_button] in
  let markup := markup_add markup [alerts_button] in
  let* _ := send_message_markup chat "What would you like to do next?" markup in
  answer_callback_query (call_id call).

Definition handle_start_no (call : CallbackQuery) : Prog unit :=
  let chat := chat_id (call_message call) in
  let* _ := send_message chat
    ("Alright! If you change your mind, just type /start to begin. " ++ smile_sign) in
  answer_callback_query (call_id call).

Definition handle_get_weather (call : CallbackQuery) : Prog unit :=
  let chat := chat_id (call_message call) in
  let* _ := perform (StatesSet chat waiting_for_weather_location) in
  let* _ := send_message chat "Please enter a location to get the weather:" in
  answer_callback_query (call_id call).

Definition handle_set_location (call : CallbackQuery) : Prog unit :=
  let chat := chat_id (call_message call) in
  let* _ := perform (StatesSet chat waiting_for_save_location) in
  let* _ := send_message chat
    "Please enter the location you'd like to save for updates:" in
  answer_callback_query (call_id call).

Definition handle_weather_alerts (call : CallbackQuery) : Prog unit :=
  let chat := chat_id (call_message call) in
  let* _ := send_message chat "Weather alerts feature is under development!" in
  answer_callback_query (call_id call).

Definition handle_try_again_yes (call : CallbackQuery) : Prog unit :=
  let chat := chat_id (call_message call) in
  let* _ := perform (StatesSet chat waiting_for_save_location) in
  let* _ := send_message chat
    "Please enter the location you'd like to save for updates:" in
  answer_callback_query (call_id call).

Definition handle_try_again_no (call : CallbackQuery) : Prog unit :=
  let chat := chat_id (call_message call) in
  let* _ := send_message chat
    "Okay, the location wasn't saved. If you'd like to try again, just type a location." in
  answer_callback_query (call_id call).

(** The catch-all message handler. *)
Definition handle_all_messages {rt : PyRuntime} (str_other : json -> string)
    (message : Message) : Prog unit :=
  let* current_state := perform (StatesGet (chat_id message)) in
  if decide (current_state = Some waiting_for_weather_location) then
    let* _ := fetch_weather str_other message in
    perform (StatesPop (chat_id message))
  else if decide (current_state = Some waiting_for_save_location) then
    let* _ := save_location str_other message in
    perform (StatesPop (chat_id message))
  else
    send_message (chat_id message)
      "Please use the menu options. Type /start to see available commands.".

(** An inbound update, as the transport library classifies it: a message
    matching [commands=['start']], any other text message, or a button
    press. *)
Inductive Update : Type :=
| StartCommand (message : Message)
| TextMessage (message : Message)
| ButtonPress (call : CallbackQuery).

(** The callback handlers in registration order; the first whose filter
    accepts [call.data] runs, and a press no filter accepts is dropped. *)
Definition callback_handlers : list (string * (CallbackQuery -> Prog unit)) :=
  [("start_yes", handle_start_yes);
   ("start_no", handle_start_no);
   ("get_weather", handle_get_weather);
   ("set_location", handle_set_location);
   ("weather_alerts", handle_weather_alerts);
   ("try_again_yes", handle_try_again_yes);
   ("try_again_no", handle_try_again_no)].

Fixpoint dispatch_callback
    (handlers : list (string * (CallbackQuery -> Prog unit)))
    (call : CallbackQuery) : Prog unit :=
  match handlers with
  | [] => Ret tt
  | (data, handler) :: rest =>
      if String.eqb (call_data call) data then handler call
      else dispatch_callback rest call
  end.

Definition process_update {rt : PyRuntime} (str_other : json -> string) (u : Update)
  : Prog unit :=
  match u with
  | StartCommand message => send_welcome message
  | TextMessage message => handle_all_messages str_other message
  | ButtonPress call => dispatch_callback callback_handlers call
  end.


(** ** Observations on traces and stores *)

(** The outbound messages of a trace. *)
Definition is_send (o : Op) : bool :=
  match o with SendMessage _ _ _ _ => true | _ => false end.

Definition sent (tr : list Op) : list Op := filter is_send tr.

(** The accesses to [user_data.json] in a trace. *)
Definition is_file_op (o : Op) : bool :=
  match o with PathExists | JsonLoad | JsonDump _ => true | _ => false end.

Definition file_ops (tr : list Op) : list Op := filter is_file_op tr.

Definition is_geocode (o : Op) : bool :=
  match o with Geocode _ => true | _ => false end.

Definition is_write (o : Op) : bool :=
  match o with JsonDump _ => true | _ => false end.

Definition writes (tr : list Op) : list Op := filter is_write tr.

(** The saved locations of a user in a well-formed store. *)
Definition stored_locations (fs : FileState) (user_id : string)
  : option (list json) :=
  match fs with
  | Stored (JObj d) =>
      match Py.dict_get user_id d with
      | Some (JObj record) =>
          match Py.dict_get "locations" record with
          | Some (JArr l) => Some l
          | _ => None
          end
      | _ => None
      end
  | _ => None
  end.

(** The dictionary [load_user_data] returns, when it returns one. *)
Definition loaded_users (fs : FileState) : option (list (string * json)) :=
  match fs with
  | NoFile => Some []
  | Stored (JObj d) => Some d
  | _ => None
  end.

(** The fields of a user's record once [ensure_profile] has run. *)
Definition fields_of (d : list (string * json)) (user_id : string)
  : list (string * json) :=
  match Py.dict_get user_id d with
  | Some (JObj record) => record
  | _ => default_fields
  end.

(** The users' dictionary with [location] appended to the list [l] of
    [user_id]. *)
Definition with_location (d : list (string * json)) (user_id : string)
    (l : list json) (location : string) : list (string * json) :=
  Py.dict_set user_id
    (JObj (Py.dict_set "locations" (JArr (l ++ [JStr location]))
             (fields_of d user_id))) d.

(** The list [save_location] will test membership against: empty when
    the file or the user's record is yet to be created, or the record
    is reset; undefined when loading or indexing would raise. *)
Definition effective_locations (fs : FileState) (user_id : string)
  : option (list json) :=
  match loaded_users fs with
  | Some d =>
      match Py.dict_get "locations" (fields_of d user_id) with
      | Some (JArr l) => Some l
      | _ => None
      end
  | None => None
  end.

(** What the resolver answers for a geocoder result. *)
Definition located (found : result (option Location)) : option (Q * Q) :=
  match found with
  | Ok (Some loc) => Some (round2 (latitude loc), round2 (longitude loc))
  | _ => None
  end.

Definition query_of (message : string + Message) : string :=
  match message with
  | inl s => s
  | inr m => text m
  end.

(** How often a string occurs in a list of JSON values. *)
Definition occurrences (s : string) (l : list json) : nat :=
  length (filter (fun x => Py.eq_str s x = true) l).

(** The three steps of a session; [None] is idle. *)
Definition defined_step (s : option string) : Prop :=
  s = None \/ s = Some waiting_for_weather_location
  \/ s = Some waiting_for_save_location.

(** The resolver found nothing: no match, or the provider failed. *)
Definition not_found (env : Env) (query : string) : Prop :=
  forall loc, nominatim env query <> Ok (Some loc).

(** The world once [user_states.pop(chat, None)] has run. *)
Definition pop_state (chat : Z) (w : World) : World :=
  {| user_states := delete chat (user_states w);
     USER_DATA_FILE := USER_DATA_FILE w |}.

(** A user's record with [locations] as the only list entry and the
    default preferences and alert flag. *)
Definition profile_with (locations : list json) : json :=
  JObj [("locations", JArr locations);
        ("preferences", JObj [("alert_frequency", JStr "daily");
                              ("temperature_unit", JStr "celsius")]);
        ("alerts_enabled", JBool true)].

(** The session map when the process starts: [user_states = {}]. *)
Definition start_world (fs : FileState) : World :=
  {| user_states := ∅; USER_DATA_FILE := fs |}.

(** The updates of a history handled one after the other, each with the
    answers its collaborators give at that time. *)
Fixpoint run_updates {rt : PyRuntime} (str_other : json -> string)
    (history : list (Env * Update)) (w : World) : World :=
  match history with
  | [] => w
  | (env, u) :: rest =>
      run_updates str_other rest
        (final (run env (process_update str_other u) w))
  end.

(** The transition table of the session state machine, as a function on
    the session map: free text consumed in an awaiting step clears it,
    the two menu buttons and the retry button set a step, everything
    else leaves the map as it is. *)
Definition transition (u : Update) (states : gmap Z string) : gmap Z string :=
  match u with
  | StartCommand _ => states
  | TextMessage m =>
      if decide (states !! chat_id m = Some waiting_for_weather_location \/
                 states !! chat_id m = Some waiting_for_save_location)
      then delete (chat_id m) states
      else states
  | ButtonPress call =>
      let chat := chat_id (call_message call) in
      if String.eqb (call_data call) "get_weather" then
        <[chat := waiting_for_weather_location]> states
      else if String.eqb (call_data call) "set_location"
              || String.eqb (call_data call) "try_again_yes" then
        <[chat := waiting_for_save_location]> states
      else states
  end.

(** The updates the transport can deliver: a button press carries the
    callback data of a button, and the buttons are the bot's own. *)
Definition known_update (u : Update) : Prop :=
  match u with
  | ButtonPress call => In (call_data call) (map fst callback_handlers)
  | _ => True
  end.

(** The buttons of the keyboards in a trace. *)
Definition buttons_of (o : Op) : list InlineKeyboardButton :=
  match o with
  | SendMessage _ _ (Some markup) _ => concat markup
  | _ => []
  end.

(** Every button in the trace carries callback data that some
    registered handler accepts. *)
Definition buttons_handled (tr : list Op) : bool :=
  forallb
    (fun b => existsb (String.eqb (callback_data b)) (map fst callback_handlers))
    (concat (map buttons_of tr)).

(** The chat an update comes from. *)
Definition update_chat (u : Update) : Z :=
  match u with
  | StartCommand message | TextMessage message => chat_id message
  | ButtonPress call => chat_id (call_message call)
  end.

(** Lines 169-197 of [save_location] on the loaded dictionary: the
    record is ensured, then the location is looked up and appended. *)
Definition upsert (user_data : json) (user_id location : string)
  : result (option json) :=
  let? user_data := ensure_profile user_data user_id in
  add_location user_data user_id location.

Definition save_error_text : string :=
  "Sorry, there was an error saving your location.".

Definition retry_text : string :=
  "This location could not be found. Would you like to try again?".

(** A store [load_user_data] with [save_location] cannot work on. *)
Definition corrupt_store : World :=
  {| user_states := ∅; USER_DATA_FILE := Unparsable |}.

(** No string occurs twice in a list of locations. *)
Definition no_duplicates (l : list json) : Prop :=
  forall s, (occurrences s l <= 1)%nat.

(** A store with two users, the first with two locations. *)
Definition two_users : World :=
  {| user_states := ∅;
     USER_DATA_FILE :=
       Stored (JObj [("7", profile_with [JStr "Rome"; JStr "Paris"]);
                     ("8", profile_with [JStr "Oslo"])]) |}.

(** The same text as [Sample.message], padded differently: an em space
    in front, a no-break space and a line break behind. *)
Definition padded_again : Message :=
  {| chat_id := 7;
     text := PyStr.bytes [226; 128; 131]%nat ++ "Paris" ++
             PyStr.bytes [194; 160]%nat ++ PyStr.NL |}.

(** Every message of the trace goes to [chat]. *)
Definition all_sent_to (chat : Z) (tr : list Op) : bool :=
  forallb (fun o => match o with
                    | SendMessage c _ _ _ => Z.eqb c chat
                    | _ => true
                    end) tr.

(** The trace consists of messages to [chat] and of nothing else. *)
Definition only_messages_to (chat : Z) (tr : list Op) : bool :=
  forallb (fun o => match o with
                    | SendMessage c _ _ _ => Z.eqb c chat
                    | _ => false
                    end) tr.

Definition is_answer (o : Op) : bool :=
  match o with AnswerCallbackQuery _ => true | _ => false end.

Definition no_weather_text : string :=
  "Sorry, I could not retrieve the weather information.".

Definition unexpected_text : string :=
  "Sorry, an unexpected error occurred.".

(** What [get_weather] returns for an answer of the weather service. *)
Definition got_weather (answer : result json) : result json :=
  match answer with
  | Ok weather => Ok weather
  | Err e => if is_RequestException e then Ok JNull else Err e
  end.

(** A weather service that answers with a JSON list. *)
Definition listing_env : Env :=
  {| nominatim := fun _ =>
       Ok (Some {| address := "Paris"; latitude := 4886 # 100;
                   longitude := 232 # 100 |});
     openweathermap := fun _ _ => Ok (JArr [JStr "clear sky"]) |}.

(** A forecast whose first entry describes the weather without the
    [description] key. *)
Definition undescribed : list (string * json) :=
  [("list", JArr [JObj [("weather", JArr [JObj [("id", JInt 800)]]);
                        ("main", JObj [("temp", JInt 21)])]])].

Definition undescribed_env : Env :=
  {| nominatim := nominatim listing_env;
     openweathermap := fun _ _ => Ok (JObj undescribed) |}.

(** The first character of the text is whitespace. *)
Definition leading_space (s : string) : bool :=
  PyStr.starts PyStr.is_space PyStr.is_space2 PyStr.is_space3 s.

(** The last character of the text is whitespace. *)
Definition trailing_space (s : string) : bool :=
  PyStr.starts PyStr.is_space (fun b a => PyStr.is_space2 a b)
    (fun c b a => PyStr.is_space3 a b c) (String.rev s).

(** Neither the first nor the last character is whitespace. *)
Definition trimmed (s : string) : Prop :=
  leading_space s = false /\ trailing_space s = false.

(** [s.isspace()], or [s] is empty. *)
Definition blank (s : string) : bool :=
  PyStr.only PyStr.is_space PyStr.is_space2 PyStr.is_space3 s.

(** A text of a space, a no-break space, a tab, an ideographic space
    and a line break, which the geocoder is made to resolve. *)
Definition blank_message : Message :=
  {| chat_id := 7;
     text := " " ++ PyStr.bytes [194; 160; 9; 227; 128; 128]%nat ++ PyStr.NL |}.

Definition lenient_env : Env :=
  {| nominatim := fun _ =>
       Ok (Some {| address := "Somewhere"; latitude := 0; longitude := 0 |});
     openweathermap := fun _ _ => Err RequestException |}.

Definition is_forecast (o : Op) : bool :=
  match o with RequestForecast _ _ => true | _ => false end.

(** One failed attempt to save and the press on Yes that follows it. *)
Definition retry_round (env : Env) (m : Message) (call : CallbackQuery)
  : list (Env * Update) :=
  [(env, TextMessage m); (env, ButtonPress call)].

(** [n] such rounds in a row. *)
Fixpoint retry_rounds (n : nat) (env : Env) (m : Message)
    (call : CallbackQuery) : list (Env * Update) :=
  match n with
  | O => []
  | S n' => (retry_round env m call ++ retry_rounds n' env m call)%list
  end.

(** ** Sample data *)

Module Sample.

Definition paris : Location :=
  {| address := "Paris, Ile-de-France, France";
     latitude := 488588897 # 10000000;
     longitude := 2320041 # 1000000 |}.

(** A geocoder that knows Paris (however the query is padded) and a
    weather service that is down. *)
Definition env : Env :=
  {| nominatim := fun query =>
       if String.eqb (PyStr.strip query) "Paris" then Ok (Some paris)
       else Ok None;
     openweathermap := fun _ _ => Err RequestException |}.

Definition str_other (x : json) : string := "<object>".

(** The sample texts are ASCII, where every runtime capitalizes as
    this one does. *)
#[global] Instance runtime : PyRuntime :=
  {| str_capitalize := PyStr.capitalize_ascii;
     str_capitalize_ascii := fun _ _ => eq_refl;
     str_capitalize_first :=
       fun c tail _ => ex_intro _ (PyStr.lower tail) eq_refl |}.

Definition message : Message := {| chat_id := 7; text := " Paris " |}.

Definition atlantis : Message := {| chat_id := 7; text := "Atlantis" |}.

Definition press (data : string) : CallbackQuery :=
  {| call_id := "q1";
     call_message := {| chat_id := 7; text := "" |};
     call_data := data |}.

(** A second user saving the same place. *)
Definition message8 : Message := {| chat_id := 8; text := "Paris" |}.

(** Both workers load before either writes. *)
Definition overlapping : list bool :=
  [true; true; true; false; false; false; true; true; false; false].

(** User 7 has pressed "Set Location" and nothing is stored yet. *)
Definition saving : World :=
  {| user_states := {[ 7 := waiting_for_save_location ]};
     USER_DATA_FILE := NoFile |}.

(** User 7 has pressed "Get Weather". *)
Definition asking : World :=
  {| user_states := {[ 7 := waiting_for_weather_location ]};
     USER_DATA_FILE := NoFile |}.

Definition fresh : World :=
  {| user_states := ∅; USER_DATA_FILE := NoFile |}.

(** A forecast whose first entry has a description and no
    temperature; the second entry is never looked at. *)
Definition forecast : list (string * json) :=
  [("cod", JStr "200");
   ("list", JArr [JObj [("main", JObj [("humidity", JInt 40)]);
                        ("weather", JArr [JObj [("description", JStr "clear SKY")]])];
                  JObj [("weather", JArr [JObj [("description", JStr "rain")]])]])].

Definition sunny_env : Env :=
  {| nominatim := nominatim env;
     openweathermap := fun _ _ => Ok (JObj forecast) |}.

(** A store where user 7 has a dictionary without any field. *)
Definition hollow : World :=
  {| user_states := ∅;
     USER_DATA_FILE := Stored (JObj [("7", JObj [])]) |}.

(** A store where the record of user 7 is a list, not a dictionary. *)
Definition misshapen : World :=
  {| user_states := ∅;
     USER_DATA_FILE := Stored (JObj [("7", JArr [JStr "Rome"])]) |}.

End Sample.

(** ** Running programs *)

Section Running.
Context (env : Env).

Lemma run_bind {A B} (p : Prog A) (f : A -> Prog B) (w : World) :
  run env (bind p f) w =
  let o := run env p w in
  match returned o with
  | Ok a =>
      let o' := run env (f a) (final o) in
      {| trace := trace o ++ trace o'; final := final o';
         returned := returned o' |}
  | Err e => {| trace := trace o; final := final o; returned := Err e |}
  end.
Proof.
  revert w. induction p as [a | e | o k IH]; intros w; cbn.
  - destruct (run env (f a) w); reflexivity.
  - reflexivity.
  - rewrite IH. cbn.
    destruct (returned (run env (k (exec_op env o w).1) (exec_op env o w).2));
      reflexivity.
Qed.

Lemma run_try_except {A} (handles : Exn -> bool) (p : Prog A)
    (h : Exn -> Prog A) (w : World) :
  run env (try_except handles p h) w =
  let o := run env p w in
  match returned o with
  | Ok a => o
  | Err e =>
      if handles e then
        let o' := run env (h e) (final o) in
        {| trace := trace o ++ trace o'; final := final o';
           returned := returned o' |}
      else o
  end.
Proof.
  revert w. induction p as [a | e | o k IH]; intros w; cbn.
  - reflexivity.
  - destruct (handles e); cbn; [destruct (run env (h e) w)|]; reflexivity.
  - rewrite IH. cbn.
    destruct (run env (k (exec_op env o w).1) (exec_op env o w).2)
      as [tr fin [a | e]]; cbn; [reflexivity|].
    destruct (handles e); reflexivity.
Qed.

Lemma run_perform (o : Op) (w : World) :
  run env (perform o) w =
  {| trace := [o]; final := (exec_op env o w).2;
     returned := Ok (exec_op env o w).1 |}.
Proof. reflexivity. Qed.

Lemma run_lift {A} (r : result A) (w : World) :
  run env (lift r) w = {| trace := []; final := w; returned := r |}.
Proof. destruct r; reflexivity. Qed.

(** Running a program to its end is stepping it. *)
Lemma run_steps {A} (p : Prog A) (w : World) :
  exists n : nat,
    let pw := Nat.iter n (fun pw => step env pw.1 pw.2) (p, w) in
    finished pw.1 = true /\ pw.2 = final (run env p w) /\
    returned (run env p w) =
      match pw.1 with
      | Ret a => Ok a
      | Raise e => Err e
      | Do _ _ => returned (run env p w)
      end.
Proof.
  revert w. induction p as [a | e | o k IH]; intros w.
  - exists 0%nat. cbn. auto.
  - exists 0%nat. cbn. auto.
  - destruct (IH (exec_op env o w).1 (exec_op env o w).2) as [n Hn].
    exists (S n). rewrite Nat.iter_succ_r. exact Hn.
Qed.

End Running.

(** ** Dictionaries *)

Section Dictionaries.

Lemma dict_get_set_eq k v d : Py.dict_get k (Py.dict_set k v d) = Some v.
Proof.
  induction d as [| [k' v'] d IH]; cbn.
  - by rewrite String.eqb_refl.
  - destruct (String.eqb k k') eqn:E; cbn; rewrite E; auto.
Qed.

Lemma dict_get_set_ne k k' v d :
  k <> k' -> Py.dict_get k' (Py.dict_set k v d) = Py.dict_get k' d.
Proof.
  intros Hne. induction d as [| [k0 v0] d IH]; cbn.
  - destruct (String.eqb k' k) eqn:E; [|done].
    apply String.eqb_eq in E. congruence.
  - destruct (String.eqb k k0) eqn:E; cbn.
    + apply String.eqb_eq in E. subst k0.
      destruct (String.eqb k' k) eqn:E'; [|done].
      apply String.eqb_eq in E'. congruence.
    + by rewrite IH.
Qed.

Lemma dict_set_set k v v' d :
  Py.dict_set k v (Py.dict_set k v' d) = Py.dict_set k v d.
Proof.
  induction d as [| [k0 v0] d IH]; cbn.
  - by rewrite String.eqb_refl.
  - destruct (String.eqb k k0) eqn:E; cbn; rewrite E; [done|].
    by rewrite IH.
Qed.

Lemma occurrences_app s l1 l2 :
  occurrences s (l1 ++ l2) = (occurrences s l1 + occurrences s l2)%nat.
Proof. unfold occurrences. by rewrite filter_app, length_app. Qed.

Lemma occurrences_absent s l :
  existsb (Py.eq_str s) l = false -> occurrences s l = 0%nat.
Proof.
  unfold occurrences. induction l as [| x l IH]; intros H; [done|].
  cbn in H. apply orb_false_iff in H as [Hx Hl].
  rewrite filter_cons. destruct (decide _) as [E|E]; [congruence|auto].
Qed.

Lemma occurrences_self s : occurrences s [JStr s] = 1%nat.
Proof.
  unfold occurrences. rewrite filter_cons.
  destruct (decide _) as [E|E]; [done|].
  cbn in E. by rewrite String.eqb_refl in E.
Qed.

End Dictionaries.

(** ** The resolver and the store *)

Section Components.
Context (env : Env).

Lemma run_location_handler message w :
  run env (location_handler message) w =
  {| trace := [Geocode (query_of message)]; final := w;
     returned := Ok (located (nominatim env (query_of message))) |}.
Proof.
  unfold location_handler. cbn.
  destruct message as [s | m]; cbn;
    match goal with |- context [nominatim env ?q] =>
      destruct (nominatim env q) as [[loc |] | e] end; reflexivity.
Qed.

Lemma run_load_user_data w :
  run env load_user_data w =
  match USER_DATA_FILE w with
  | NoFile =>
      {| trace := [PathExists; JsonDump (JObj []); JsonLoad];
         final := {| user_states := user_states w;
                     USER_DATA_FILE := Stored (JObj []) |};
         returned := Ok (JObj []) |}
  | Unparsable =>
      {| trace := [PathExists; JsonLoad]; final := w;
         returned := Err JSONDecodeError |}
  | Stored data =>
      {| trace := [PathExists; JsonLoad]; final := w; returned := Ok data |}
  end.
Proof.
  unfold load_user_data. destruct w as [st fs]. cbn.
  destruct fs; reflexivity.
Qed.

Lemma ensure_profile_loaded d user_id :
  exists d1,
    ensure_profile (JObj d) user_id = Ok (JObj d1) /\
    Py.dict_get user_id d1 = Some (JObj (fields_of d user_id)) /\
    forall v, Py.dict_set user_id v d1 = Py.dict_set user_id v d.
Proof.
  unfold ensure_profile, fields_of. cbn. unfold Py.dict_has.
  destruct (Py.dict_get user_id d) as [record |] eqn:E; cbn.
  - destruct record; cbn;
      try (eexists; split; [reflexivity|]; split;
           [apply dict_get_set_eq | intros; apply dict_set_set]).
    exists d. auto.
  - eexists; split; [reflexivity|]; split;
      [apply dict_get_set_eq | intros; apply dict_set_set].
Qed.

Lemma add_location_listed d1 user_id record l location :
  Py.dict_get user_id d1 = Some (JObj record) ->
  Py.dict_get "locations" record = Some (JArr l) ->
  add_location (JObj d1) user_id location =
  if existsb (Py.eq_str location) l then Ok None
  else Ok (Some (JObj (Py.dict_set user_id
         (JObj (Py.dict_set "locations" (JArr (l ++ [JStr location])) record))
         d1))).
Proof.
  intros Hrec Hloc. unfold add_location. cbn. rewrite Hrec. cbn.
  rewrite Hloc. cbn. destruct (existsb _ l); reflexivity.
Qed.

Lemma saved_items_with_location d user_id l location :
  saved_items (JObj (with_location d user_id l location)) user_id =
  Ok (l ++ [JStr location])%list.
Proof.
  unfold saved_items, with_location. cbn.
  rewrite dict_get_set_eq. cbn. by rewrite dict_get_set_eq.
Qed.

(** [save_location] on a text the geocoder finds, over a store it can
    load and index. *)
Lemma run_save_location_found str_other m w loc d l :
  nominatim env (text m) = Ok (Some loc) ->
  loaded_users (USER_DATA_FILE w) = Some d ->
  Py.dict_get "locations" (fields_of d (pretty (chat_id m))) = Some (JArr l) ->
  let location := PyStr.strip (text m) in
  let loading := run env load_user_data w in
  run env (save_location str_other m) w =
  if existsb (Py.eq_str location) l then
    {| trace := Geocode (text m) :: (trace loading ++
                [SendMessage (chat_id m) (duplicate_text location) None None])%list;
       final := final loading; returned := Ok tt |}
  else
    let d' := with_location d (pretty (chat_id m)) l location in
    {| trace := Geocode (text m) :: (trace loading ++
                [JsonDump (JObj d');
                 SendMessage (chat_id m)
                   (saved_text str_other (l ++ [JStr location])%list) None None])%list;
       final := {| user_states := user_states w;
                   USER_DATA_FILE := Stored (JObj d') |};
       returned := Ok tt |}.
Proof.
  intros Hfound Hload Hlist location. cbv zeta.
  assert (Hl : returned (run env load_user_data w) = Ok (JObj d) /\
               user_states (final (run env load_user_data w)) = user_states w).
  { rewrite run_load_user_data.
    destruct w as [st [| | data]]; cbn in *; try discriminate.
    - by inversion Hload.
    - destruct data; try discriminate. by inversion Hload. }
  destruct Hl as [Hret Hst].
  destruct (ensure_profile_loaded d (pretty (chat_id m)))
    as (d1 & Hens & Hget & Hset).
  unfold save_location. rewrite run_try_except, run_bind.
  rewrite run_location_handler. cbn [returned final trace query_of located].
  rewrite Hfound. cbn [located]. rewrite run_bind.
  destruct (run env load_user_data w) as [ltr lfin lret].
  cbn [returned final trace] in *. subst lret.
  cbv zeta. rewrite run_bind, run_lift.
  cbv zeta. cbn [returned final trace]. rewrite Hens, run_bind, run_lift.
  cbv zeta. cbn [returned final trace].
  rewrite (add_location_listed _ _ _ _ _ Hget Hlist). fold location.
  destruct (existsb (Py.eq_str location) l); cbn.
  - reflexivity.
  - rewrite Hset. fold (with_location d (pretty (chat_id m)) l location).
    rewrite saved_items_with_location. cbn.
    rewrite Hst. reflexivity.
Qed.

End Components.

(** ** The shape of every run of the two pipelines *)

Ltac run_step :=
  first [ rewrite run_try_except | rewrite run_bind | rewrite run_lift
        | rewrite run_location_handler | rewrite run_load_user_data ];
  cbv zeta; cbn [returned final trace].

Ltac leaf Hfound :=
  cbn; eexists; repeat split; try reflexivity;
  [ intros H; discriminate H | intros H; destruct (Hfound H) ].

Section Shapes.
Context {rt : PyRuntime}.
Context (env : Env) (str_other : json -> string).

Lemma run_save_location_not_found m w :
  not_found env (text m) ->
  run env (save_location str_other m) w =
  {| trace := [Geocode (text m);
               SendMessage (chat_id m)
                 "This location could not be found. Would you like to try again?"
                 (Some try_again_markup) None];
     final := w; returned := Ok tt |}.
Proof.
  intros Hnf. unfold save_location. do 3 run_step. cbn [query_of].
  destruct (nominatim env (text m)) as [[loc |] | e] eqn:E; cbn;
    [by destruct (Hnf loc) | reflexivity | reflexivity].
Qed.

(** Whatever the geocoder and the file hold, [save_location] asks the
    geocoder once, with the message text, sends exactly one message,
    never raises and leaves the session map alone. *)
Lemma run_save_location_shape m w :
  let o := run env (save_location str_other m) w in
  exists tail msg markup,
    trace o = Geocode (text m) :: tail /\
    filter is_geocode tail = [] /\
    sent tail = [SendMessage (chat_id m) msg markup None] /\
    user_states (final o) = user_states w /\
    buttons_handled tail = true /\
    returned o = Ok tt.
Proof.
  cbv zeta. unfold save_location. do 3 run_step. cbn [query_of].
  destruct (nominatim env (text m)) as [[loc |] | e]; cbn [located];
    try (cbn; do 3 eexists; repeat split; reflexivity).
  run_step. run_step.
  destruct w as [st [| | data]]; cbn [USER_DATA_FILE returned final trace];
    try (cbn; do 3 eexists; repeat split; reflexivity).
  - do 2 run_step.
    destruct (ensure_profile (JObj []) (pretty (chat_id m))) as [ud1 | e1];
      cbn [returned final trace];
      try (cbn; do 3 eexists; repeat split; reflexivity).
    do 2 run_step.
    destruct (add_location ud1 _ _) as [[ud2 |] | e2];
      cbn [returned final trace];
      try (cbn; do 3 eexists; repeat split; reflexivity).
    unfold save_user_data. do 3 run_step.
    destruct (saved_items ud2 _) as [items | e3];
      cbn; do 3 eexists; repeat split; reflexivity.
  - do 2 run_step.
    destruct (ensure_profile data (pretty (chat_id m))) as [ud1 | e1];
      cbn [returned final trace];
      try (cbn; do 3 eexists; repeat split; reflexivity).
    do 2 run_step.
    destruct (add_location ud1 _ _) as [[ud2 |] | e2];
      cbn [returned final trace];
      try (cbn; do 3 eexists; repeat split; reflexivity).
    unfold save_user_data. do 3 run_step.
    destruct (saved_items ud2 _) as [items | e3];
      cbn; do 3 eexists; repeat split; reflexivity.
Qed.

Lemma run_get_weather lat lon w :
  run env (get_weather lat lon) w =
  {| trace := [RequestForecast lat lon]; final := w;
     returned := match openweathermap env lat lon with
                 | Ok weather => Ok weather
                 | Err e => if is_RequestException e then Ok JNull else Err e
                 end |}.
Proof.
  unfold get_weather. cbn.
  destruct (openweathermap env lat lon) as [weather | e]; cbn;
    [reflexivity | destruct e; reflexivity].
Qed.

(** Whatever the collaborators answer, [fetch_weather] asks the
    geocoder once, touches neither the file nor the session map, and
    never raises; it sends nothing exactly when the resolver finds
    nothing. *)
Lemma run_fetch_weather_shape m w :
  let o := run env (fetch_weather str_other m) w in
  exists tail,
    trace o = Geocode (text m) :: tail /\
    file_ops tail = [] /\
    final o = w /\
    returned o = Ok tt /\
    buttons_handled tail = true /\
    (sent tail = [] <-> not_found env (text m)).
Proof.
  cbv zeta. unfold fetch_weather. do 3 run_step. cbn [query_of].
  destruct (nominatim env (text m)) as [[loc |] | e] eqn:E; cbn [located];
    try (cbn; eexists; repeat split; try done;
         intros _ loc' Hloc'; congruence).
  assert (Hfound : ¬ not_found env (text m)).
  { intros Hnf. exact (Hnf loc E). }
  run_step. rewrite run_get_weather. cbn [returned final trace].
  destruct (openweathermap env _ _) as [weather | e];
    [| destruct (is_RequestException e)]; cbn [returned final trace];
    try (leaf Hfound).
  - destruct (Py.is_None weather); [leaf Hfound |].
    unfold report_forecast. do 2 run_step.
    destruct (Py.get weather "list" (JArr [])) as [data | e];
      cbn [returned final trace]; [| leaf Hfound].
    destruct (Py.truthy data); cbn [negb]; [| leaf Hfound].
    do 2 run_step.
    destruct (Py.first data) as [entry | e];
      cbn [returned final trace]; [| leaf Hfound].
    do 2 run_step.
    destruct (Py.get entry "weather" (JArr [])) as [info | e];
      cbn [returned final trace]; [| leaf Hfound].
    destruct (Py.truthy info); cbn [negb]; [| leaf Hfound].
    do 2 run_step.
    destruct (Py.first info) as [info0 | e];
      cbn [returned final trace]; [| leaf Hfound].
    do 2 run_step.
    destruct (Py.get info0 "description" (JStr "Unknown")) as [description | e];
      cbn [returned final trace]; [| leaf Hfound].
    do 2 run_step.
    destruct (Py.get entry "main" (JObj [])) as [main | e];
      cbn [returned final trace]; [| leaf Hfound].
    do 2 run_step.
    destruct (Py.get main "temp" (JStr "N/A")) as [temp | e];
      cbn [returned final trace]; [| leaf Hfound].
    do 2 run_step.
    destruct (Py.capitalize description) as [capitalized | e];
      cbn [returned final trace]; leaf Hfound.
Qed.

Lemma run_text_awaiting_weather m w :
  user_states w !! chat_id m = Some waiting_for_weather_location ->
  let o := run env (fetch_weather str_other m) w in
  run env (handle_all_messages str_other m) w =
  {| trace := StatesGet (chat_id m) :: trace o ++ [StatesPop (chat_id m)];
     final := pop_state (chat_id m) (final o); returned := Ok tt |}.
Proof.
  intros Hst. cbv zeta.
  destruct (run_fetch_weather_shape m w) as (tail & _ & _ & _ & Hret & _).
  unfold handle_all_messages. rewrite run_bind, run_perform. cbv zeta.
  cbn [returned final trace exec_op fst snd]. rewrite Hst.
  rewrite decide_True by reflexivity. rewrite run_bind. cbv zeta.
  rewrite Hret. reflexivity.
Qed.

Lemma run_text_awaiting_save m w :
  user_states w !! chat_id m = Some waiting_for_save_location ->
  let o := run env (save_location str_other m) w in
  run env (handle_all_messages str_other m) w =
  {| trace := StatesGet (chat_id m) :: trace o ++ [StatesPop (chat_id m)];
     final := pop_state (chat_id m) (final o); returned := Ok tt |}.
Proof.
  intros Hst. cbv zeta.
  destruct (run_save_location_shape m w)
    as (tail & msg & markup & _ & _ & _ & _ & _ & Hret).
  unfold handle_all_messages. rewrite run_bind, run_perform. cbv zeta.
  cbn [returned final trace exec_op fst snd]. rewrite Hst.
  rewrite decide_False by discriminate.
  rewrite decide_True by reflexivity. rewrite run_bind. cbv zeta.
  rewrite Hret. reflexivity.
Qed.

Lemma run_text_otherwise m w :
  user_states w !! chat_id m <> Some waiting_for_weather_location ->
  user_states w !! chat_id m <> Some waiting_for_save_location ->
  run env (handle_all_messages str_other m) w =
  {| trace := [StatesGet (chat_id m);
               SendMessage (chat_id m)
                 "Please use the menu options. Type /start to see available commands."
                 None None];
     final := w; returned := Ok tt |}.
Proof.
  intros H1 H2. unfold handle_all_messages. rewrite run_bind, run_perform.
  cbv zeta. cbn [returned final trace exec_op fst snd].
  rewrite decide_False by assumption.
  rewrite decide_False by assumption. reflexivity.
Qed.

End Shapes.

(** ** Saving a location twice *)

Section SavingTwice.
Context (env1 env2 : Env) (str_other : json -> string).

Lemma existsb_eq_str_last location l :
  existsb (Py.eq_str location) (l ++ [JStr location]) = true.
Proof.
  rewrite existsb_app. cbn. rewrite String.eqb_refl.
  by rewrite orb_true_r.
Qed.

Lemma effective_locations_inv fs user_id l :
  effective_locations fs user_id = Some l ->
  exists d, loaded_users fs = Some d /\
            Py.dict_get "locations" (fields_of d user_id) = Some (JArr l).
Proof.
  unfold effective_locations. destruct (loaded_users fs) as [d |]; [|done].
  destruct (Py.dict_get "locations" (fields_of d user_id)) as [[] |] eqn:E;
    intros H; try discriminate H.
  injection H as ->. eauto.
Qed.

Lemma stored_with_location d user_id l location :
  stored_locations (Stored (JObj (with_location d user_id l location))) user_id
  = Some (l ++ [JStr location])%list.
Proof.
  unfold stored_locations, with_location.
  rewrite dict_get_set_eq. by rewrite dict_get_set_eq.
Qed.

Lemma fields_of_with_location d user_id l location :
  fields_of (with_location d user_id l location) user_id =
  Py.dict_set "locations" (JArr (l ++ [JStr location])) (fields_of d user_id).
Proof.
  unfold with_location at 1. unfold fields_of at 1.
  by rewrite dict_get_set_eq.
Qed.

(** C1.  A message whose text the resolver resolves, saved twice over
    a store that can be loaded and does not list the location yet: the
    first call answers "saved" and persists the trimmed text at the
    end of the user's list; the second answers "already saved",
    writes nothing and leaves the world as it was; the persisted list
    then holds the location exactly once. *)
Theorem save_twice_added_then_duplicate (m : Message) (w : World)
    (loc1 loc2 : Location) (l : list json) :
  nominatim env1 (text m) = Ok (Some loc1) ->
  nominatim env2 (text m) = Ok (Some loc2) ->
  effective_locations (USER_DATA_FILE w) (pretty (chat_id m)) = Some l ->
  existsb (Py.eq_str (PyStr.strip (text m))) l = false ->
  let location := PyStr.strip (text m) in
  let user_id := pretty (chat_id m) in
  let first := run env1 (save_location str_other m) w in
  let second := run env2 (save_location str_other m) (final first) in
  sent (trace first) =
    [SendMessage (chat_id m)
       (saved_text str_other (l ++ [JStr location])) None None] /\
  stored_locations (USER_DATA_FILE (final first)) user_id =
    Some (l ++ [JStr location])%list /\
  sent (trace second) =
    [SendMessage (chat_id m) (duplicate_text location) None None] /\
  writes (trace second) = [] /\
  final second = final first /\
  exists saved,
    stored_locations (USER_DATA_FILE (final second)) user_id = Some saved /\
    occurrences location saved = 1%nat.
Proof.
  intros H1 H2 Heff Hnew. cbv zeta.
  destruct (effective_locations_inv _ _ _ Heff) as (d & Hload & Hlist).
  set (location := PyStr.strip (text m)) in *.
  set (user_id := pretty (chat_id m)) in *.
  rewrite (run_save_location_found env1 str_other m w loc1 d l H1 Hload Hlist).
  cbv zeta. fold location user_id. rewrite Hnew.
  cbn [trace final returned].
  set (d' := with_location d user_id l location).
  set (w' := {| user_states := user_states w;
                USER_DATA_FILE := Stored (JObj d') |}).
  assert (Hlist' : Py.dict_get "locations" (fields_of d' (pretty (chat_id m)))
                   = Some (JArr (l ++ [JStr location]))).
  { subst d'. fold user_id. rewrite fields_of_with_location.
    apply dict_get_set_eq. }
  rewrite (run_save_location_found env2 str_other m w' loc2 d' _ H2
             eq_refl Hlist').
  cbv zeta. fold location. rewrite existsb_eq_str_last.
  rewrite !run_load_user_data. cbn [trace final returned].
  split; [|split; [|split; [|split; [|split]]]].
  - destruct (USER_DATA_FILE w); reflexivity.
  - apply stored_with_location.
  - reflexivity.
  - reflexivity.
  - reflexivity.
  - exists (l ++ [JStr location])%list. split.
    + apply stored_with_location.
    + rewrite occurrences_app, occurrences_self.
      by rewrite (occurrences_absent _ _ Hnew).
Qed.

End SavingTwice.

Lemma save_twice_witness :
  let first := run Sample.env (save_location Sample.str_other Sample.message)
                 Sample.fresh in
  let second := run Sample.env (save_location Sample.str_other Sample.message)
                  (final first) in
  stored_locations (USER_DATA_FILE (final first)) "7" = Some [JStr "Paris"] /\
  writes (trace second) = [] /\
  final second = final first.
Proof.
  pose proof (save_twice_added_then_duplicate Sample.env Sample.env
                Sample.str_other Sample.message Sample.fresh
                Sample.paris Sample.paris [] eq_refl eq_refl eq_refl eq_refl)
    as (_ & Hstored & _ & Hwrites & Hsame & _).
  exact (conj Hstored (conj Hwrites Hsame)).
Defined.

(** ** Creating and resetting profiles *)

Section Profiles.
Context (env : Env) (str_other : json -> string).

Lemma fields_of_absent d user_id :
  Py.dict_get user_id d = None -> fields_of d user_id = default_fields.
Proof. unfold fields_of. by intros ->. Qed.

Lemma fields_of_non_dict d user_id record :
  Py.dict_get user_id d = Some record -> Py.is_dict record = false ->
  fields_of d user_id = default_fields.
Proof. unfold fields_of. intros ->. by destruct record. Qed.

(** What the first save of a user whose record is created, or reset,
    does: the default profile is in place before the membership test,
    and the profile written has the location as its only entry. *)
Lemma save_over_default_profile m w loc d :
  nominatim env (text m) = Ok (Some loc) ->
  loaded_users (USER_DATA_FILE w) = Some d ->
  fields_of d (pretty (chat_id m)) = default_fields ->
  let user_id := pretty (chat_id m) in
  let location := PyStr.strip (text m) in
  let o := run env (save_location str_other m) w in
  exists d1 d',
    ensure_profile (JObj d) user_id = Ok (JObj d1) /\
    Py.dict_get user_id d1 = Some default_profile /\
    add_location (JObj d1) user_id location = Ok (Some (JObj d')) /\
    USER_DATA_FILE (final o) = Stored (JObj d') /\
    Py.dict_get user_id d' = Some (profile_with [JStr location]) /\
    (forall other, other <> user_id ->
       Py.dict_get other d' = Py.dict_get other d) /\
    sent (trace o) =
      [SendMessage (chat_id m) (saved_text str_other [JStr location])
         None None].
Proof.
  intros Hfound Hload Hdef. cbv zeta.
  destruct (ensure_profile_loaded d (pretty (chat_id m)))
    as (d1 & Hens & Hget & Hset).
  rewrite Hdef in Hget.
  assert (Hlist : Py.dict_get "locations" (fields_of d (pretty (chat_id m)))
                  = Some (JArr [])) by (by rewrite Hdef).
  exists d1, (with_location d (pretty (chat_id m)) [] (PyStr.strip (text m))).
  rewrite (run_save_location_found env str_other m w loc d [] Hfound Hload Hlist).
  cbv zeta. cbn [existsb trace final returned USER_DATA_FILE].
  repeat split.
  - exact Hens.
  - exact Hget.
  - rewrite (add_location_listed d1 _ default_fields [] _ Hget eq_refl).
    cbn [existsb]. rewrite Hset. unfold with_location. by rewrite Hdef.
  - unfold with_location. rewrite dict_get_set_eq, Hdef. reflexivity.
  - intros other Hne. unfold with_location.
    apply dict_get_set_ne. congruence.
  - rewrite run_load_user_data.
    destruct (USER_DATA_FILE w); reflexivity.
Qed.

(** C5.  A user without a stored record, in a store that is absent or
    holds a dictionary: the first successful save puts the default
    profile (preferences daily / celsius, alerts enabled, no location)
    in place before the membership test, and persists that profile
    with the location appended. *)
Theorem first_save_creates_default_profile (m : Message) (w : World)
    (loc : Location) (d : list (string * json)) :
  nominatim env (text m) = Ok (Some loc) ->
  loaded_users (USER_DATA_FILE w) = Some d ->
  Py.dict_get (pretty (chat_id m)) d = None ->
  let user_id := pretty (chat_id m) in
  let location := PyStr.strip (text m) in
  let o := run env (save_location str_other m) w in
  exists d1 d',
    ensure_profile (JObj d) user_id = Ok (JObj d1) /\
    Py.dict_get user_id d1 =
      Some (JObj [("locations", JArr []);
                  ("preferences", JObj [("alert_frequency", JStr "daily");
                                        ("temperature_unit", JStr "celsius")]);
                  ("alerts_enabled", JBool true)]) /\
    add_location (JObj d1) user_id location = Ok (Some (JObj d')) /\
    USER_DATA_FILE (final o) = Stored (JObj d') /\
    Py.dict_get user_id d' =
      Some (JObj [("locations", JArr [JStr location]);
                  ("preferences", JObj [("alert_frequency", JStr "daily");
                                        ("temperature_unit", JStr "celsius")]);
                  ("alerts_enabled", JBool true)]).
Proof.
  intros Hfound Hload Habsent. cbv zeta.
  destruct (save_over_default_profile m w loc d Hfound Hload
              (fields_of_absent _ _ Habsent))
    as (d1 & d' & H1 & H2 & H3 & H4 & H5 & _).
  exists d1, d'. auto.
Qed.

(** C2, as the code has it.  A stored record that is not a dictionary
    is replaced by the default profile before the membership test; the
    save then goes through, the other users' records are kept, and the
    user is told the location was saved. *)
Theorem non_dict_record_is_reset (m : Message) (w : World)
    (loc : Location) (d : list (string * json)) (record : json) :
  nominatim env (text m) = Ok (Some loc) ->
  USER_DATA_FILE w = Stored (JObj d) ->
  Py.dict_get (pretty (chat_id m)) d = Some record ->
  Py.is_dict record = false ->
  let user_id := pretty (chat_id m) in
  let location := PyStr.strip (text m) in
  let o := run env (save_location str_other m) w in
  exists d1 d',
    ensure_profile (JObj d) user_id = Ok (JObj d1) /\
    Py.dict_get user_id d1 = Some default_profile /\
    add_location (JObj d1) user_id location = Ok (Some (JObj d')) /\
    USER_DATA_FILE (final o) = Stored (JObj d') /\
    Py.dict_get user_id d' = Some (profile_with [JStr location]) /\
    (forall other, other <> user_id ->
       Py.dict_get other d' = Py.dict_get other d) /\
    sent (trace o) =
      [SendMessage (chat_id m) (saved_text str_other [JStr location])
         None None].
Proof.
  intros Hfound Hfile Hrec Hshape.
  apply (save_over_default_profile m w loc d Hfound).
  - by rewrite Hfile.
  - exact (fields_of_non_dict _ _ _ Hrec Hshape).
Qed.

End Profiles.

Lemma first_save_witness :
  exists d',
    USER_DATA_FILE
      (final (run Sample.env (save_location Sample.str_other Sample.message)
                Sample.fresh)) = Stored (JObj d') /\
    Py.dict_get "7" d' = Some (profile_with [JStr "Paris"]).
Proof.
  destruct (first_save_creates_default_profile Sample.env Sample.str_other
              Sample.message Sample.fresh Sample.paris []
              eq_refl eq_refl eq_refl)
    as (d1 & d' & _ & _ & _ & Hfile & Hrec).
  exists d'. exact (conj Hfile Hrec).
Defined.

Lemma non_dict_reset_witness :
  exists d',
    USER_DATA_FILE
      (final (run Sample.env (save_location Sample.str_other Sample.message)
                Sample.misshapen)) = Stored (JObj d') /\
    Py.dict_get "7" d' = Some (profile_with [JStr "Paris"]).
Proof.
  destruct (non_dict_record_is_reset Sample.env Sample.str_other
              Sample.message Sample.misshapen Sample.paris
              [("7", JArr [JStr "Rome"])] (JArr [JStr "Rome"])
              eq_refl eq_refl eq_refl eq_refl)
    as (d1 & d' & _ & _ & _ & Hfile & Hrec & _).
  exists d'. exact (conj Hfile Hrec).
Defined.

(** C2, as stated, fails: a record that is a dictionary but has none of
    the three fields is not recreated.  The save aborts with the generic
    error message and the record stays as it was. *)
Lemma hollow_record_not_reset :
  let o := run Sample.env (save_location Sample.str_other Sample.message)
             Sample.hollow in
  USER_DATA_FILE (final o) = Stored (JObj [("7", JObj [])]) /\
  sent (trace o) =
    [SendMessage 7 "Sorry, there was an error saving your location."
       None None] /\
  writes (trace o) = [].
Proof. vm_compute. auto. Qed.

(** ** A location the resolver does not find *)

Section NotFound.
Context {rt : PyRuntime}.
Context (env env' : Env) (str_other : json -> string).

Lemma dispatch_try_again_no call :
  call_data call = "try_again_no" ->
  process_update str_other (ButtonPress call) = handle_try_again_no call.
Proof. intros H. cbn. by rewrite H. Qed.

Lemma dispatch_try_again_yes call :
  call_data call = "try_again_yes" ->
  process_update str_other (ButtonPress call) = handle_try_again_yes call.
Proof. intros H. cbn. by rewrite H. Qed.

(** C4.  Free text consumed while a location to save is awaited, and
    not found by the resolver: the file is neither tested, read nor
    written, the one message sent is the retry prompt with its Yes and
    No buttons, and a following press on No does not touch the file
    either. *)
Theorem not_found_leaves_store_alone (m : Message) (w : World)
    (call : CallbackQuery) :
  user_states w !! chat_id m = Some waiting_for_save_location ->
  not_found env (text m) ->
  call_data call = "try_again_no" ->
  let o := run env (process_update str_other (TextMessage m)) w in
  let o' := run env' (process_update str_other (ButtonPress call)) (final o) in
  file_ops (trace o) = [] /\
  USER_DATA_FILE (final o) = USER_DATA_FILE w /\
  sent (trace o) =
    [SendMessage (chat_id m)
       "This location could not be found. Would you like to try again?"
       (Some [[ {| button_text := "Yes"; callback_data := "try_again_yes" |};
                {| button_text := "No"; callback_data := "try_again_no" |} ]])
       None] /\
  user_states (final o) !! chat_id m = None /\
  file_ops (trace o') = [] /\
  USER_DATA_FILE (final o') = USER_DATA_FILE w /\
  user_states (final o') = user_states (final o).
Proof.
  intros Hst Hnf Hno. cbv zeta.
  rewrite (dispatch_try_again_no call Hno).
  cbn [process_update].
  rewrite (run_text_awaiting_save env str_other m w Hst). cbv zeta.
  rewrite (run_save_location_not_found env str_other m w Hnf).
  cbn [trace final returned].
  repeat split; try reflexivity.
  cbn. apply lookup_delete_eq.
Qed.

End NotFound.

Lemma not_found_witness :
  let o := run Sample.env
             (process_update Sample.str_other (TextMessage Sample.atlantis))
             Sample.saving in
  let o' := run Sample.env
              (process_update Sample.str_other
                 (ButtonPress (Sample.press "try_again_no"))) (final o) in
  file_ops (trace o) = [] /\ file_ops (trace o') = [] /\
  USER_DATA_FILE (final o') = NoFile.
Proof.
  assert (Hnf : not_found Sample.env (text Sample.atlantis))
    by (intros loc H; discriminate H).
  pose proof (not_found_leaves_store_alone Sample.env Sample.env
                Sample.str_other Sample.atlantis Sample.saving
                (Sample.press "try_again_no") eq_refl Hnf eq_refl)
    as (H1 & _ & _ & _ & H2 & H3 & _).
  exact (conj H1 (conj H2 H3)).
Defined.

(** ** What is sent to the resolver and what is stored *)

Section TrimmedInput.
Context {rt : PyRuntime}.
Context (env : Env) (str_other : json -> string).

(** C10.  Free text consumed while a location to save is awaited: the
    one query the geocoder gets is the message text as typed; when a
    location is appended it is that text trimmed, at the end of the
    user's list, whatever place (name and coordinates) the geocoder
    answered with. *)
Theorem stored_text_is_trimmed_input (m : Message) (w : World) :
  user_states w !! chat_id m = Some waiting_for_save_location ->
  let user_id := pretty (chat_id m) in
  let o := run env (process_update str_other (TextMessage m)) w in
  filter is_geocode (trace o) = [Geocode (text m)] /\
  forall loc l,
    nominatim env (text m) = Ok (Some loc) ->
    effective_locations (USER_DATA_FILE w) user_id = Some l ->
    existsb (Py.eq_str (PyStr.strip (text m))) l = false ->
    stored_locations (USER_DATA_FILE (final o)) user_id =
      Some (l ++ [JStr (PyStr.strip (text m))])%list /\
    forall env2 loc2,
      nominatim env2 (text m) = Ok (Some loc2) ->
      USER_DATA_FILE
        (final (run env2 (process_update str_other (TextMessage m)) w)) =
      USER_DATA_FILE (final o).
Proof.
  intros Hst. cbv zeta. cbn [process_update].
  rewrite (run_text_awaiting_save env str_other m w Hst). cbv zeta.
  cbn [trace final]. split.
  - destruct (run_save_location_shape env str_other m w)
      as (tail & msg & markup & Htr & Hgeo & _).
    cbv zeta in Htr. rewrite Htr.
    change (filter is_geocode
              (StatesGet (chat_id m)
               :: (Geocode (text m) :: tail) ++ [StatesPop (chat_id m)])%list)
      with (Geocode (text m)
            :: filter is_geocode (tail ++ [StatesPop (chat_id m)])%list).
    rewrite filter_app, Hgeo. reflexivity.
  - intros loc l Hfound Heff Hnew.
    destruct (effective_locations_inv _ _ _ Heff) as (d & Hload & Hlist).
    rewrite (run_save_location_found env str_other m w loc d l
               Hfound Hload Hlist).
    cbv zeta. rewrite Hnew. cbn [final pop_state USER_DATA_FILE]. split.
    + apply stored_with_location.
    + intros env2 loc2 Hfound2.
      rewrite (run_text_awaiting_save env2 str_other m w Hst). cbv zeta.
      rewrite (run_save_location_found env2 str_other m w loc2 d l
                 Hfound2 Hload Hlist).
      cbv zeta. rewrite Hnew. reflexivity.
Qed.

End TrimmedInput.

Lemma trimmed_input_witness :
  let o := run Sample.env
             (process_update Sample.str_other (TextMessage Sample.message))
             Sample.saving in
  filter is_geocode (trace o) = [Geocode " Paris "] /\
  stored_locations (USER_DATA_FILE (final o)) "7" = Some [JStr "Paris"].
Proof.
  pose proof (stored_text_is_trimmed_input Sample.env Sample.str_other
                Sample.message Sample.saving eq_refl) as (Hq & Happ).
  destruct (Happ Sample.paris [] eq_refl eq_refl eq_refl) as (Hs & _).
  exact (conj Hq Hs).
Defined.

(** ** The session state machine *)

Section Sessions.
Context {rt : PyRuntime}.
Context (str_other : json -> string).

(** The handlers implement the transition table. *)
Lemma user_states_after env u w :
  user_states (final (run env (process_update str_other u) w)) =
  transition u (user_states w).
Proof.
  destruct u as [m | m | call]; cbn [process_update transition].
  - reflexivity.
  - destruct (decide (user_states w !! chat_id m =
                      Some waiting_for_weather_location)) as [Hw | Hw].
    + rewrite (run_text_awaiting_weather env str_other m w Hw). cbv zeta.
      destruct (run_fetch_weather_shape env str_other m w)
        as (tail & _ & _ & Hfin & _).
      cbv zeta in Hfin. rewrite Hfin. cbn [final pop_state user_states].
      rewrite decide_True by auto. reflexivity.
    + destruct (decide (user_states w !! chat_id m =
                        Some waiting_for_save_location)) as [Hs | Hs].
      * rewrite (run_text_awaiting_save env str_other m w Hs). cbv zeta.
        destruct (run_save_location_shape env str_other m w)
          as (tail & msg & markup & _ & _ & _ & Hfin & _).
        cbv zeta in Hfin. cbn [final pop_state user_states]. rewrite Hfin.
        rewrite decide_True by auto. reflexivity.
      * rewrite (run_text_otherwise env str_other m w Hw Hs). cbn.
        rewrite decide_False by tauto. reflexivity.
  - unfold callback_handlers, dispatch_callback.
    repeat match goal with
    | |- context [String.eqb (call_data call) ?c] =>
        destruct (String.eqb (call_data call) c) eqn:?
    end; try reflexivity;
    repeat match goal with
    | H : String.eqb (call_data call) _ = true |- _ =>
        apply String.eqb_eq in H
    end; congruence.
Qed.

Lemma transition_defined u states chat :
  defined_step (states !! chat) ->
  defined_step (transition u states !! chat).
Proof.
  intros Hdef. unfold defined_step.
  destruct u as [m | m | call]; cbn [transition].
  - exact Hdef.
  - destruct (decide _); [| exact Hdef].
    destruct (decide (chat_id m = chat)) as [-> | Hne].
    + rewrite lookup_delete_eq. auto.
    + rewrite lookup_delete_ne by exact Hne. exact Hdef.
  - cbv zeta. destruct (String.eqb (call_data call) "get_weather").
    + destruct (decide (chat_id (call_message call) = chat)) as [-> | Hne].
      * rewrite lookup_insert_eq. auto.
      * rewrite lookup_insert_ne by exact Hne. exact Hdef.
    + destruct (_ || _); [| exact Hdef].
      destruct (decide (chat_id (call_message call) = chat)) as [-> | Hne].
      * rewrite lookup_insert_eq. auto.
      * rewrite lookup_insert_ne by exact Hne. exact Hdef.
Qed.

Lemma run_updates_defined history w chat :
  (forall c, defined_step (user_states w !! c)) ->
  defined_step (user_states (run_updates str_other history w) !! chat).
Proof.
  revert w. induction history as [| [env u] rest IH]; intros w Hw; cbn.
  - apply Hw.
  - apply IH. intros c. rewrite user_states_after.
    apply transition_defined, Hw.
Qed.

(** C3.  From the empty session map, after any history of updates and
    one more update of any kind, the step of every user is idle,
    awaiting a weather location or awaiting a location to save.  Free
    text always leaves its user idle, whatever step it met and whatever
    the pipelines did; of the two retry buttons, Yes puts the user back
    into awaiting a location to save and No changes no step. *)
Theorem session_step_always_defined (history : list (Env * Update))
    (fs : FileState) (env : Env) (u : Update) (chat : Z) :
  let w := run_updates str_other history (start_world fs) in
  let w' := final (run env (process_update str_other u) w) in
  defined_step (user_states w' !! chat) /\
  (forall m, u = TextMessage m -> user_states w' !! chat_id m = None) /\
  (forall call, u = ButtonPress call ->
     call_data call = "try_again_yes" ->
     user_states w' !! chat_id (call_message call) =
       Some waiting_for_save_location) /\
  (forall call, u = ButtonPress call ->
     call_data call = "try_again_no" ->
     user_states w' = user_states w).
Proof.
  cbv zeta.
  assert (Hinv : forall c,
    defined_step
      (user_states (run_updates str_other history (start_world fs)) !! c)).
  { intros c. apply run_updates_defined. intros c'. left. apply lookup_empty. }
  set (w := run_updates str_other history (start_world fs)) in *.
  rewrite user_states_after. split; [| split; [| split]].
  - apply transition_defined, Hinv.
  - intros m ->. cbn [transition].
    destruct (Hinv (chat_id m)) as [Hidle | Hawait].
    + rewrite decide_False; [exact Hidle |].
      rewrite Hidle. intros [H | H]; discriminate H.
    + rewrite decide_True by exact Hawait. apply lookup_delete_eq.
  - intros call -> Hyes. cbn [transition]. rewrite Hyes. cbn.
    apply lookup_insert_eq.
  - intros call -> Hno. cbn [transition]. rewrite Hno. reflexivity.
Qed.

End Sessions.

Lemma session_step_witness :
  let w := run_updates Sample.str_other
             [(Sample.env, ButtonPress (Sample.press "set_location"))]
             (start_world NoFile) in
  user_states
    (final (run Sample.env
              (process_update Sample.str_other (TextMessage Sample.atlantis))
              w)) !! 7 = None /\
  user_states
    (final (run Sample.env
              (process_update Sample.str_other
                 (ButtonPress (Sample.press "try_again_yes"))) w)) !! 7 =
    Some waiting_for_save_location.
Proof.
  split.
  - pose proof (session_step_always_defined Sample.str_other
                  [(Sample.env, ButtonPress (Sample.press "set_location"))]
                  NoFile Sample.env (TextMessage Sample.atlantis) 7)
      as (_ & Htext & _).
    apply (Htext Sample.atlantis eq_refl).
  - pose proof (session_step_always_defined Sample.str_other
                  [(Sample.env, ButtonPress (Sample.press "set_location"))]
                  NoFile Sample.env
                  (ButtonPress (Sample.press "try_again_yes")) 7)
      as (_ & _ & Hyes & _).
    apply (Hyes (Sample.press "try_again_yes") eq_refl eq_refl).
Defined.

(** ** Silence *)

Section Silence.
Context {rt : PyRuntime}.
Context (env : Env) (str_other : json -> string).

Lemma sent_app (l1 l2 : list Op) : sent (l1 ++ l2) = (sent l1 ++ sent l2)%list.
Proof. apply filter_app. Qed.

Lemma button_press_sends call w :
  In (call_data call) (map fst callback_handlers) ->
  sent (trace (run env (dispatch_callback callback_handlers call) w)) <> [].
Proof.
  cbn. intros Hin.
  repeat (destruct Hin as [<- | Hin]; [cbn; discriminate |]).
  destruct Hin.
Qed.

Lemma buttons_handled_app (l1 l2 : list Op) :
  buttons_handled (l1 ++ l2) = buttons_handled l1 && buttons_handled l2.
Proof.
  unfold buttons_handled. by rewrite map_app, concat_app, forallb_app.
Qed.

(** The callback data of every button the bot puts on a keyboard is
    accepted by one of its handlers: presses of the bot's own buttons
    are [known_update]s. *)
Lemma issued_buttons_are_handled (u : Update) (w : World) :
  buttons_handled (trace (run env (process_update str_other u) w)) = true.
Proof.
  destruct u as [m | m | call]; cbn [process_update].
  - reflexivity.
  - destruct (decide (user_states w !! chat_id m =
                      Some waiting_for_weather_location)) as [Hw | Hw];
      [| destruct (decide (user_states w !! chat_id m =
                           Some waiting_for_save_location)) as [Hs | Hs]].
    + rewrite (run_text_awaiting_weather env str_other m w Hw). cbv zeta.
      destruct (run_fetch_weather_shape env str_other m w)
        as (tail & Htr & _ & _ & _ & Hbtn & _).
      cbv zeta in Htr. rewrite Htr. cbn [trace].
      change (StatesGet (chat_id m)
              :: (Geocode (text m) :: tail) ++ [StatesPop (chat_id m)])%list
        with ([StatesGet (chat_id m); Geocode (text m)]
              ++ tail ++ [StatesPop (chat_id m)])%list.
      rewrite !buttons_handled_app, Hbtn. reflexivity.
    + rewrite (run_text_awaiting_save env str_other m w Hs). cbv zeta.
      destruct (run_save_location_shape env str_other m w)
        as (tail & msg & markup & Htr & _ & _ & _ & Hbtn & _).
      cbv zeta in Htr. rewrite Htr. cbn [trace].
      change (StatesGet (chat_id m)
              :: (Geocode (text m) :: tail) ++ [StatesPop (chat_id m)])%list
        with ([StatesGet (chat_id m); Geocode (text m)]
              ++ tail ++ [StatesPop (chat_id m)])%list.
      rewrite !buttons_handled_app, Hbtn. reflexivity.
    + rewrite (run_text_otherwise env str_other m w Hw Hs). reflexivity.
  - unfold callback_handlers, dispatch_callback.
    repeat match goal with
    | |- context [String.eqb (call_data call) ?c] =>
        destruct (String.eqb (call_data call) c)
    end; reflexivity.
Qed.

(** C8.  Every update the transport can deliver is answered with at
    least one message, except free text met while a weather location is
    awaited and not found by the resolver, which is answered with
    nothing; the same failure while a location to save is awaited is
    answered with the retry prompt. *)
Theorem silent_only_on_weather_not_found (u : Update) (w : World) :
  known_update u ->
  let o := run env (process_update str_other u) w in
  (sent (trace o) = [] <->
   exists m, u = TextMessage m /\
             user_states w !! chat_id m = Some waiting_for_weather_location /\
             not_found env (text m)) /\
  (forall m, u = TextMessage m ->
     user_states w !! chat_id m = Some waiting_for_save_location ->
     not_found env (text m) ->
     sent (trace o) =
       [SendMessage (chat_id m)
          "This location could not be found. Would you like to try again?"
          (Some try_again_markup) None]).
Proof.
  intros Hknown. cbv zeta. split.
  - destruct u as [m | m | call]; cbn [process_update].
    + split; [discriminate | intros (m' & H & _); discriminate H].
    + destruct (decide (user_states w !! chat_id m =
                        Some waiting_for_weather_location)) as [Hw | Hw].
      * rewrite (run_text_awaiting_weather env str_other m w Hw). cbv zeta.
        destruct (run_fetch_weather_shape env str_other m w)
          as (tail & Htr & _ & _ & _ & _ & Hsilent).
        cbv zeta in Htr. rewrite Htr. cbn [trace].
        change (sent (StatesGet (chat_id m)
                      :: (Geocode (text m) :: tail) ++ [StatesPop (chat_id m)])%list)
          with (sent (tail ++ [StatesPop (chat_id m)])%list).
        rewrite sent_app. change (sent [StatesPop (chat_id m)]) with (@nil Op).
        rewrite app_nil_r. rewrite Hsilent. split.
        -- intros Hnf. exists m. auto.
        -- intros (m' & [= <-] & _ & Hnf). exact Hnf.
      * split.
        -- intros Hnone. exfalso.
           destruct (decide (user_states w !! chat_id m =
                             Some waiting_for_save_location)) as [Hs | Hs].
           ++ rewrite (run_text_awaiting_save env str_other m w Hs) in Hnone.
              cbv zeta in Hnone.
              destruct (run_save_location_shape env str_other m w)
                as (tail & msg & markup & Htr & _ & Hsent & _).
              cbv zeta in Htr. rewrite Htr in Hnone. cbn [trace] in Hnone.
              change (sent (StatesGet (chat_id m)
                            :: (Geocode (text m) :: tail)
                               ++ [StatesPop (chat_id m)])%list)
                with (sent (tail ++ [StatesPop (chat_id m)])%list) in Hnone.
              rewrite sent_app, Hsent in Hnone. discriminate Hnone.
           ++ rewrite (run_text_otherwise env str_other m w Hw Hs) in Hnone.
              discriminate Hnone.
        -- intros (m' & [= <-] & Hw' & _). contradiction.
    + split.
      * intros Hnone. destruct (button_press_sends call w Hknown Hnone).
      * intros (m' & H & _). discriminate H.
  - intros m -> Hs Hnf. cbn [process_update].
    rewrite (run_text_awaiting_save env str_other m w Hs). cbv zeta.
    rewrite (run_save_location_not_found env str_other m w Hnf).
    reflexivity.
Qed.

End Silence.

Lemma silence_witness :
  sent (trace (run Sample.env
                 (process_update Sample.str_other (TextMessage Sample.atlantis))
                 Sample.asking)) = [] /\
  sent (trace (run Sample.env
                 (process_update Sample.str_other (TextMessage Sample.atlantis))
                 Sample.saving)) =
    [SendMessage 7
       "This location could not be found. Would you like to try again?"
       (Some try_again_markup) None].
Proof.
  assert (Hnf : not_found Sample.env (text Sample.atlantis))
    by (intros loc H; discriminate H).
  split.
  - destruct (silent_only_on_weather_not_found Sample.env Sample.str_other
                (TextMessage Sample.atlantis) Sample.asking I) as [Hiff _].
    apply Hiff.
    exists Sample.atlantis. split; [reflexivity |]. split; [reflexivity |].
    exact Hnf.
  - destruct (silent_only_on_weather_not_found Sample.env Sample.str_other
                (TextMessage Sample.atlantis) Sample.saving I) as [_ Hsave].
    exact (Hsave Sample.atlantis eq_refl eq_refl Hnf).
Defined.

(** ** The resolver *)

Section Resolver.

(** [round2] lands on a hundredth no further than half a hundredth from
    its argument. *)
Lemma round2_close (x : Q) :
  exists k : Z, round2 x = k # 100 /\ (Qabs (round2 x - x) <= 1 # 200)%Q.
Proof.
  destruct x as [n d]. unfold round2. cbn [Qnum Qden].
  pose proof (Z.div_mod (100 * n) (Z.pos d) ltac:(lia)) as Hdm.
  pose proof (Z.mod_pos_bound (100 * n) (Z.pos d) ltac:(lia)) as Hr.
  set (q := 100 * n / Z.pos d) in *.
  set (r := (100 * n) mod Z.pos d) in *.
  eexists. split; [reflexivity |].
  unfold Qle, Qabs, Qminus, Qplus, Qopp. cbn [Qnum Qden].
  rewrite Pos2Z.inj_mul.
  destruct (2 * r ?= Z.pos d) eqn:Hc;
    [apply Z.compare_eq in Hc | rewrite Z.compare_lt_iff in Hc
     | rewrite Z.compare_gt_iff in Hc];
    try destruct (Z.even q); lia.
Qed.

(** C6.  The resolver asks the geocoder once and changes nothing.  On a
    match it returns the coordinates rounded to hundredths; on no match
    and on a provider failure alike it returns the same [None], with the
    same trace and the same world. *)
Theorem resolver_rounds_or_not_found (env : Env) (message : string + Message)
    (w : World) :
  let query := query_of message in
  let o := run env (location_handler message) w in
  trace o = [Geocode query] /\ final o = w /\
  (forall loc, nominatim env query = Ok (Some loc) ->
     returned o = Ok (Some (round2 (latitude loc), round2 (longitude loc))) /\
     exists lat lon : Z,
       round2 (latitude loc) = lat # 100 /\
       round2 (longitude loc) = lon # 100 /\
       (Qabs ((lat # 100) - latitude loc) <= 1 # 200)%Q /\
       (Qabs ((lon # 100) - longitude loc) <= 1 # 200)%Q) /\
  (nominatim env query = Ok None -> returned o = Ok None) /\
  (forall e, nominatim env query = Err e -> returned o = Ok None).
Proof.
  cbv zeta. rewrite run_location_handler. cbn [trace final returned].
  split; [reflexivity |]. split; [reflexivity |].
  split; [| split].
  - intros loc H. rewrite H. split; [reflexivity |].
    destruct (round2_close (latitude loc)) as (lat & Hlat & Hclat).
    destruct (round2_close (longitude loc)) as (lon & Hlon & Hclon).
    exists lat, lon. rewrite <- Hlat, <- Hlon. auto.
  - intros H. by rewrite H.
  - intros e H. by rewrite H.
Qed.

End Resolver.

Lemma resolver_witness :
  returned (run Sample.env (location_handler (inr Sample.message))
              Sample.fresh) = Ok (Some (4886 # 100, 232 # 100)%Q) /\
  returned (run Sample.env (location_handler (inr Sample.atlantis))
              Sample.fresh) = Ok None.
Proof.
  split.
  - destruct (resolver_rounds_or_not_found Sample.env (inr Sample.message)
                Sample.fresh) as (_ & _ & Hfound & _).
    exact (proj1 (Hfound Sample.paris eq_refl)).
  - destruct (resolver_rounds_or_not_found Sample.env (inr Sample.atlantis)
                Sample.fresh) as (_ & _ & _ & Hnone & _).
    exact (Hnone eq_refl).
Defined.

(** ** The weather fetcher *)

Lemma upper_char_code (c : ascii) :
  nat_of_ascii (PyStr.upper_char c) =
  (if (97 <=? nat_of_ascii c)%nat && (nat_of_ascii c <=? 122)%nat
   then nat_of_ascii c - 32 else nat_of_ascii c)%nat.
Proof.
  unfold PyStr.upper_char.
  destruct ((97 <=? nat_of_ascii c)%nat && (nat_of_ascii c <=? 122)%nat)
    eqn:E; [| reflexivity].
  apply nat_ascii_embedding.
  pose proof (nat_ascii_bounded c). lia.
Qed.

Section Fetcher.
Context {rt : PyRuntime}.
Context (env : Env) (str_other : json -> string).
Context (m : Message) (w : World) (loc : Location).
Context (members : list (string * json)).
Hypothesis Hfound : nominatim env (text m) = Ok (Some loc).
Hypothesis Hresp :
  openweathermap env (round2 (latitude loc)) (round2 (longitude loc)) =
  Ok (JObj members).

(** The run up to the point where the forecast is looked at. *)
Lemma run_fetch_weather_answered :
  sent (trace (run env (fetch_weather str_other m) w)) =
  sent (trace (run env
    (try_except any_exception
       (report_forecast str_other m (JObj members)) (unexpected_error m)) w)).
Proof.
  unfold fetch_weather. rewrite !run_try_except. cbv zeta.
  rewrite run_bind, run_location_handler. cbv zeta.
  cbn [returned final trace query_of]. rewrite Hfound. cbn [located].
  rewrite run_bind, run_get_weather. cbv zeta.
  cbn [returned final trace]. rewrite Hresp. cbn [Py.is_None].
  destruct (run env (report_forecast str_other m (JObj members)) w)
    as [tr fin [[] | e]]; reflexivity.
Qed.

Ltac forecast_case :=
  rewrite run_fetch_weather_answered; unfold report_forecast;
  cbn [Py.get lift bind try_except];
  repeat match goal with
  | H : Py.dict_get _ _ = _ |- _ => rewrite H
  end.

(** C7.  The fetcher looks at the first forecast entry only.  No
    entries: the "no data" message.  A first entry without weather
    descriptions: the "no description" message.  A first entry with a
    description: the greeting and a summary that carries the
    description as [str.capitalize] returns it, the temperature being
    the literal N/A when the entry has none.  For a description in
    ASCII that is the description with its first character upper-cased
    and the others lower-cased; whenever the first character is ASCII
    the summary starts with its upper-case form. *)
Theorem forecast_outcomes :
  let out := sent (trace (run env (fetch_weather str_other m) w)) in
  let say msg := SendMessage (chat_id m) msg None None in
  ((Py.dict_get "list" members = None \/
    Py.dict_get "list" members = Some (JArr [])) ->
   out = [say "No weather data available."]) /\
  (forall entry rest,
     Py.dict_get "list" members = Some (JArr (JObj entry :: rest)) ->
     ((Py.dict_get "weather" entry = None \/
       Py.dict_get "weather" entry = Some (JArr [])) ->
      out = [say "No weather description available."]) /\
     (forall info more description,
        Py.dict_get "weather" entry = Some (JArr (JObj info :: more)) ->
        Py.dict_get "description" info = Some (JStr description) ->
        ((Py.dict_get "main" entry = None \/
          exists main, Py.dict_get "main" entry = Some (JObj main) /\
                       Py.dict_get "temp" main = None) ->
         out = [say "Here's the weather!";
                SendMessage (chat_id m)
                  ("*Weather:* " ++ str_capitalize description ++ PyStr.NL ++
                   "*Temperature:* N/A" ++ degree_sign ++ "C")
                  None (Some "Markdown")]) /\
        (forall main temp,
           Py.dict_get "main" entry = Some (JObj main) ->
           Py.dict_get "temp" main = Some temp ->
           out = [say "Here's the weather!";
                  SendMessage (chat_id m)
                    (weather_text str_other (str_capitalize description) temp)
                    None (Some "Markdown")]) /\
        (PyStr.is_ascii description = true ->
           str_capitalize description = PyStr.capitalize_ascii description) /\
        (forall c tail,
           description = String c tail -> (nat_of_ascii c < 128)%nat ->
           exists tail',
             str_capitalize description = String (PyStr.upper_char c) tail' /\
             nat_of_ascii (PyStr.upper_char c) =
               (if (97 <=? nat_of_ascii c)%nat && (nat_of_ascii c <=? 122)%nat
                then nat_of_ascii c - 32 else nat_of_ascii c)%nat))).
Proof.
  cbv zeta. split; [| intros entry rest Hlist; split;
                      [| intros info more description Hweather Hdesc;
                         split; [| split; [| split]]]].
  - intros [Hnone | Hempty]; forecast_case; reflexivity.
  - intros [Hnone | Hempty]; forecast_case; cbn; rewrite ?Hnone, ?Hempty;
      reflexivity.
  - intros [Hnone | (main & Hmain & Htemp)]; forecast_case; cbn;
      rewrite ?Hweather, ?Hdesc, ?Hnone, ?Hmain; cbn;
      rewrite ?Hdesc, ?Hnone, ?Hmain; cbn; rewrite ?Htemp; reflexivity.
  - intros main temp Hmain Htemp. forecast_case. cbn.
    rewrite ?Hweather, ?Hdesc, ?Hmain. cbn.
    rewrite ?Hdesc, ?Hmain. cbn. rewrite ?Htemp. reflexivity.
  - apply str_capitalize_ascii.
  - intros c tail -> Hc.
    destruct (str_capitalize_first c tail Hc) as (tail' & Htail).
    exists tail'. split; [exact Htail | apply upper_char_code].
Qed.

End Fetcher.

Lemma forecast_witness :
  sent (trace (run Sample.sunny_env
                 (fetch_weather Sample.str_other Sample.message)
                 Sample.asking)) =
  [SendMessage 7 "Here's the weather!" None None;
   SendMessage 7
     ("*Weather:* Clear sky" ++ PyStr.NL ++ "*Temperature:* N/A" ++
      degree_sign ++ "C") None (Some "Markdown")].
Proof.
  destruct (forecast_outcomes Sample.sunny_env Sample.str_other
              Sample.message Sample.asking Sample.paris Sample.forecast
              eq_refl eq_refl) as (_ & Hentry).
  destruct (Hentry _ _ eq_refl) as (_ & Hinfo).
  destruct (Hinfo _ _ _ eq_refl eq_refl) as (Hmissing & _).
  apply Hmissing. right. eexists. split; reflexivity.
Defined.

(** ** Two users saving *)

Section TwoUsers.
Context (env1 env2 : Env) (str_other : json -> string).

(** After a save that went through, the file holds a dictionary in which
    the user's list has the location and the other users' records are
    as before. *)
Lemma save_location_found_after env m w loc d l :
  nominatim env (text m) = Ok (Some loc) ->
  loaded_users (USER_DATA_FILE w) = Some d ->
  Py.dict_get "locations" (fields_of d (pretty (chat_id m))) = Some (JArr l) ->
  let o := run env (save_location str_other m) w in
  exists d' s,
    USER_DATA_FILE (final o) = Stored (JObj d') /\
    stored_locations (Stored (JObj d')) (pretty (chat_id m)) = Some s /\
    existsb (Py.eq_str (PyStr.strip (text m))) s = true /\
    forall other, other <> pretty (chat_id m) ->
      Py.dict_get other d' = Py.dict_get other d.
Proof.
  intros Hfound Hload Hlist. cbv zeta.
  rewrite (run_save_location_found env str_other m w loc d l Hfound Hload Hlist).
  cbv zeta.
  destruct (existsb (Py.eq_str (PyStr.strip (text m))) l) eqn:Hin;
    cbn [final USER_DATA_FILE].
  - rewrite run_load_user_data.
    destruct (USER_DATA_FILE w) as [| | data] eqn:Hfile; cbn in Hload.
    + injection Hload as <-. cbn in Hlist. injection Hlist as <-.
      discriminate Hin.
    + discriminate Hload.
    + destruct data; try discriminate Hload. injection Hload as ->.
      cbn [final USER_DATA_FILE]. rewrite Hfile.
      exists d, l. split; [reflexivity |]. split; [| auto].
      unfold stored_locations. unfold fields_of in Hlist.
      destruct (Py.dict_get (pretty (chat_id m)) d) as [[] |] eqn:Hrec;
        try (cbn in Hlist; injection Hlist as <-; discriminate Hin).
      by rewrite Hlist.
  - exists (with_location d (pretty (chat_id m)) l (PyStr.strip (text m))).
    exists (l ++ [JStr (PyStr.strip (text m))])%list.
    split; [reflexivity |]. split; [apply stored_with_location |].
    split; [apply existsb_eq_str_last |].
    intros other Hne. unfold with_location. apply dict_get_set_ne. congruence.
Qed.

Lemma stored_locations_other d d' user_id :
  Py.dict_get user_id d' = Py.dict_get user_id d ->
  stored_locations (Stored (JObj d')) user_id =
  stored_locations (Stored (JObj d)) user_id.
Proof. unfold stored_locations. by intros ->. Qed.

(** C9, as the code has it.  Two saves for two different users, the
    second started when the first is over: both locations are in the
    persisted store afterwards.  The statement is symmetric in the two
    users, so it covers either order. *)
Theorem sequential_saves_keep_both (m1 m2 : Message) (w : World)
    (loc1 loc2 : Location) (l1 l2 : list json) :
  chat_id m1 <> chat_id m2 ->
  nominatim env1 (text m1) = Ok (Some loc1) ->
  nominatim env2 (text m2) = Ok (Some loc2) ->
  effective_locations (USER_DATA_FILE w) (pretty (chat_id m1)) = Some l1 ->
  effective_locations (USER_DATA_FILE w) (pretty (chat_id m2)) = Some l2 ->
  let w1 := final (run env1 (save_location str_other m1) w) in
  let w2 := final (run env2 (save_location str_other m2) w1) in
  exists s1 s2,
    stored_locations (USER_DATA_FILE w2) (pretty (chat_id m1)) = Some s1 /\
    existsb (Py.eq_str (PyStr.strip (text m1))) s1 = true /\
    stored_locations (USER_DATA_FILE w2) (pretty (chat_id m2)) = Some s2 /\
    existsb (Py.eq_str (PyStr.strip (text m2))) s2 = true.
Proof.
  intros Hne H1 H2 Heff1 Heff2. cbv zeta.
  assert (Hid : pretty (chat_id m1) <> pretty (chat_id m2)).
  { intros Heq. apply Hne. exact (inj pretty _ _ Heq). }
  destruct (effective_locations_inv _ _ _ Heff1) as (d & Hload & Hlist1).
  destruct (effective_locations_inv _ _ _ Heff2) as (d0 & Hload0 & Hlist2).
  rewrite Hload in Hload0. injection Hload0 as <-.
  destruct (save_location_found_after env1 m1 w loc1 d l1 H1 Hload Hlist1)
    as (d' & s1 & Hfile1 & Hs1 & Hin1 & Hkeep1).
  cbv zeta in Hfile1.
  set (w1 := final (run env1 (save_location str_other m1) w)) in *.
  assert (Hload' : loaded_users (USER_DATA_FILE w1) = Some d')
    by (by rewrite Hfile1).
  assert (Hlist2' : Py.dict_get "locations"
                      (fields_of d' (pretty (chat_id m2))) = Some (JArr l2)).
  { unfold fields_of. rewrite (Hkeep1 _ (not_eq_sym Hid)). exact Hlist2. }
  destruct (save_location_found_after env2 m2 w1 loc2 d' l2 H2 Hload' Hlist2')
    as (d'' & s2 & Hfile2 & Hs2 & Hin2 & Hkeep2).
  cbv zeta in Hfile2. rewrite Hfile2.
  exists s1, s2. split; [| split; [exact Hin1 | split; [exact Hs2 | exact Hin2]]].
  rewrite (stored_locations_other d' d'' _ (Hkeep2 _ Hid)). exact Hs1.
Qed.

End TwoUsers.

Lemma sequential_saves_witness :
  let w1 := final (run Sample.env
                     (save_location Sample.str_other Sample.message)
                     Sample.fresh) in
  let w2 := final (run Sample.env
                     (save_location Sample.str_other Sample.message8) w1) in
  exists s1 s2,
    stored_locations (USER_DATA_FILE w2) "7" = Some s1 /\
    existsb (Py.eq_str "Paris") s1 = true /\
    stored_locations (USER_DATA_FILE w2) "8" = Some s2 /\
    existsb (Py.eq_str "Paris") s2 = true.
Proof.
  apply (sequential_saves_keep_both Sample.env Sample.env Sample.str_other
           Sample.message Sample.message8 Sample.fresh
           Sample.paris Sample.paris [] []);
    [discriminate | reflexivity | reflexivity | reflexivity | reflexivity].
Defined.

(** C9, as stated, fails: nothing in [save_location] keeps another
    worker out between [load_user_data] and [save_user_data].  When the
    two cycles overlap, both users are told their location was saved
    and the file holds only the record written last. *)
Lemma overlapping_saves_lose_a_location :
  let '(p1, p2, w') :=
    interleave Sample.env Sample.overlapping
      (save_location Sample.str_other Sample.message)
      (save_location Sample.str_other Sample.message8)
      (start_world (Stored (JObj []))) in
  finished p1 = true /\ finished p2 = true /\
  stored_locations (USER_DATA_FILE w') "7" = None /\
  stored_locations (USER_DATA_FILE w') "8" = Some [JStr "Paris"] /\
  USER_DATA_FILE w' = Stored (JObj [("8", profile_with [JStr "Paris"])]).
Proof. vm_compute. auto 6. Qed.

(** ** Checks on small inputs *)

Example strip_both_ends :
  PyStr.strip (PyStr.NL ++ "  New York " ++ PyStr.NL) = "New York".
Proof. reflexivity. Qed.

(** U+00A0, U+2003 and U+3000 around a text, and U+200B (which is not
    whitespace) in front of one. *)
Example strip_removes_unicode_space :
  PyStr.strip (PyStr.bytes [194; 160; 226; 128; 131]%nat ++ "Paris" ++
               PyStr.bytes [227; 128; 128; 32]%nat) = "Paris" /\
  PyStr.strip (PyStr.bytes [226; 128; 139]%nat ++ "Paris ") =
    PyStr.bytes [226; 128; 139]%nat ++ "Paris".
Proof. split; vm_compute; reflexivity. Qed.

(** The characters of a word whose second letter takes two bytes
    (u with diaeresis). *)
Example chars_of_two_byte_letter :
  PyStr.chars (PyStr.bytes [90; 195; 188; 114; 105; 99; 104]%nat) =
  ["Z"; PyStr.bytes [195; 188]%nat; "r"; "i"; "c"; "h"].
Proof. vm_compute. reflexivity. Qed.

Example strip_keeps_inner_space : PyStr.strip "New  York" = "New  York".
Proof. reflexivity. Qed.

Example capitalize_lowers_the_rest :
  PyStr.capitalize_ascii "clear SKY" = "Clear sky".
Proof. reflexivity. Qed.

Example str_of_chat_id : pretty (-1001234 : Z) = "-1001234".
Proof. vm_compute. reflexivity. Qed.

Example round2_new_york :
  round2 (407127281 # 10000000) = 4071 # 100 /\
  round2 (- 740060152 # 10000000) = - 7401 # 100.
Proof. split; reflexivity. Qed.

Example round2_tie_to_even :
  round2 (1 # 8) = 12 # 100 /\ round2 (3 # 8) = 38 # 100.
Proof. split; reflexivity. Qed.

Example dict_set_keeps_order :
  Py.dict_set "b" (JInt 9) [("a", JInt 1); ("b", JInt 2); ("c", JInt 3)] =
  [("a", JInt 1); ("b", JInt 9); ("c", JInt 3)].
Proof. reflexivity. Qed.

Example contains_is_by_type :
  Py.contains (JArr [JStr "Paris"; JInt 3]) "Paris" = Ok true /\
  Py.contains (JStr "Paris, Rome") "Rome" = Ok true /\
  Py.contains (JObj [("Rome", JNull)]) "Paris" = Ok false /\
  Py.contains (JInt 3) "Paris" = Err TypeError.
Proof. repeat split; reflexivity. Qed.

Example saved_message :
  sent (trace (run Sample.env (save_location Sample.str_other Sample.message)
                 Sample.fresh)) =
  [SendMessage 7
     ("Location verified and saved successfully!" ++ PyStr.NL ++
      "Your saved locations:" ++ PyStr.NL ++ pin_sign ++ " Paris")
     None None].
Proof. vm_compute. reflexivity. Qed.

Example clear_sky_scenario :
  let env :=
    {| nominatim := fun _ =>
         Ok (Some {| address := "New York"; latitude := 407127281 # 10000000;
                     longitude := - 740060152 # 10000000 |});
       openweathermap := fun lat lon =>
         if Qeq_bool lat (4071 # 100) && Qeq_bool lon (- 7401 # 100) then
           Ok (JObj [("list",
                      JArr [JObj [("main", JObj [("temp", JFloat (43 # 2))]);
                                  ("weather",
                                   JArr [JObj [("description",
                                                JStr "clear sky")]])]])])
         else Err RequestException |} in
  let str_other := fun x =>
    match x with
    | JFloat q => if Qeq_bool q (43 # 2) then "21.5" else "<float>"
    | _ => "<object>"
    end in
  sent (trace (run env
                 (fetch_weather str_other
                    {| chat_id := 7; text := "New York" |}) Sample.asking)) =
  [SendMessage 7 "Here's the weather!" None None;
   SendMessage 7
     ("*Weather:* Clear sky" ++ PyStr.NL ++ "*Temperature:* 21.5" ++
      degree_sign ++ "C") None (Some "Markdown")].
Proof. vm_compute. reflexivity. Qed.

(** ** Loading the store *)

Section Loading.
Context (env : Env).

(** [load_user_data] creates a missing file as an empty dictionary, with
    one write, and then reads it; it changes nothing when the file is
    there and returns the document the file holds; on a file that is
    not JSON it raises the decoder's error; it never leaves the file
    missing, and a second load never writes. *)
Theorem load_user_data_creates_once (w : World) :
  let o := run env load_user_data w in
  let again := run env load_user_data (final o) in
  USER_DATA_FILE (final o) <> NoFile /\
  user_states (final o) = user_states w /\
  (USER_DATA_FILE w = NoFile ->
     returned o = Ok (JObj []) /\ writes (trace o) = [JsonDump (JObj [])]) /\
  (USER_DATA_FILE w <> NoFile -> final o = w /\ writes (trace o) = []) /\
  (forall data, USER_DATA_FILE w = Stored data -> returned o = Ok data) /\
  (USER_DATA_FILE w = Unparsable -> returned o = Err JSONDecodeError) /\
  writes (trace again) = [] /\ final again = final o /\
  returned again = returned o.
Proof.
  cbv zeta. rewrite !run_load_user_data.
  destruct w as [st [| | data]]; cbn; repeat split;
    try discriminate; try congruence; try (intros [=]); auto.
Qed.

End Loading.

Lemma load_user_data_witness :
  returned (run Sample.env load_user_data Sample.fresh) = Ok (JObj []) /\
  final (run Sample.env load_user_data Sample.hollow) = Sample.hollow.
Proof.
  destruct (load_user_data_creates_once Sample.env Sample.fresh)
    as (_ & _ & Hnew & _).
  destruct (load_user_data_creates_once Sample.env Sample.hollow)
    as (_ & _ & _ & Hold & _).
  split.
  - exact (proj1 (Hnew eq_refl)).
  - apply Hold. discriminate.
Defined.

(** ** Every outcome of a save *)

Section SaveOutcomes.
Context (env : Env) (str_other : json -> string).

(** [save_location] over a file that is there, in terms of [upsert]. *)
Lemma run_save_location_stored m w loc data :
  nominatim env (text m) = Ok (Some loc) ->
  USER_DATA_FILE w = Stored data ->
  let user_id := pretty (chat_id m) in
  let location := PyStr.strip (text m) in
  let before := [Geocode (text m); PathExists; JsonLoad] in
  let say msg := SendMessage (chat_id m) msg None None in
  run env (save_location str_other m) w =
  match upsert data user_id location with
  | Err _ =>
      {| trace := before ++ [say save_error_text]; final := w;
         returned := Ok tt |}
  | Ok None =>
      {| trace := before ++ [say (duplicate_text location)]; final := w;
         returned := Ok tt |}
  | Ok (Some user_data) =>
      {| trace := before ++
           [JsonDump user_data;
            say (match saved_items user_data user_id with
                 | Ok items => saved_text str_other items
                 | Err _ => save_error_text
                 end)];
         final := {| user_states := user_states w;
                     USER_DATA_FILE := Stored user_data |};
         returned := Ok tt |}
  end.
Proof.
  intros Hfound Hfile. cbv zeta. unfold save_location, upsert.
  do 3 run_step. cbn [query_of]. rewrite Hfound. cbn [located].
  do 2 run_step. rewrite Hfile. cbn [returned final trace].
  do 2 run_step.
  destruct (ensure_profile data (pretty (chat_id m))) as [ud1 | e1];
    cbn [returned final trace rbind]; [| destruct w; reflexivity].
  do 2 run_step.
  destruct (add_location ud1 _ _) as [[ud2 |] | e2];
    cbn [returned final trace]; try (destruct w; reflexivity).
  unfold save_user_data. do 3 run_step.
  destruct (saved_items ud2 _) as [items | e3]; reflexivity.
Qed.

(** What [upsert] gives is decided by the list it finds. *)
Lemma upsert_usable d user_id location l :
  Py.dict_get "locations" (fields_of d user_id) = Some (JArr l) ->
  upsert (JObj d) user_id location =
  if existsb (Py.eq_str location) l then Ok None
  else Ok (Some (JObj (with_location d user_id l location))).
Proof.
  intros Hlist. unfold upsert.
  destruct (ensure_profile_loaded d user_id) as (d1 & Hens & Hget & Hset).
  rewrite Hens. cbn [rbind].
  rewrite (add_location_listed d1 user_id _ l location Hget Hlist).
  destruct (existsb _ l); [reflexivity |].
  by rewrite Hset.
Qed.

(** Without such a list [upsert] changes nothing: it raises, or finds
    the location in whatever is there instead of the list. *)
Lemma upsert_unusable data user_id location :
  effective_locations (Stored data) user_id = None ->
  forall user_data, upsert data user_id location <> Ok (Some user_data).
Proof.
  unfold effective_locations, loaded_users. intros Hnone ud2.
  destruct data as [| b | z | q | t | items | d]; try (cbn; discriminate).
  - unfold upsert, ensure_profile. cbn.
    destruct (PyStr.contains user_id t); cbn; discriminate.
  - unfold upsert, ensure_profile. cbn.
    destruct (existsb _ items); cbn; discriminate.
  - unfold upsert.
    destruct (ensure_profile_loaded d user_id) as (d1 & Hens & Hget & Hset).
    rewrite Hens. cbn [rbind]. unfold add_location. cbn. rewrite Hget. cbn.
    destruct (Py.dict_get "locations" (fields_of d user_id))
      as [[| b | z | q | t | l | d2] |]; cbn; try discriminate.
    + destruct (PyStr.contains location t); cbn; discriminate.
    + destruct (Py.dict_has location d2); cbn; discriminate.
Qed.

Lemma upsert_non_dict data user_id location :
  Py.is_dict data = false -> exists e, upsert data user_id location = Err e.
Proof.
  intros Hshape. unfold upsert, ensure_profile.
  destruct data as [| b | z | q | t | items | d]; try discriminate Hshape;
    cbn; eauto.
  - destruct (PyStr.contains user_id t); cbn; eauto.
  - destruct (existsb _ items); cbn; eauto.
Qed.

Lemma run_save_location_unparsable m w loc :
  nominatim env (text m) = Ok (Some loc) ->
  USER_DATA_FILE w = Unparsable ->
  run env (save_location str_other m) w =
  {| trace := [Geocode (text m); PathExists; JsonLoad;
               SendMessage (chat_id m) save_error_text None None];
     final := w; returned := Ok tt |}.
Proof.
  intros Hfound Hfile. unfold save_location.
  do 3 run_step. cbn [query_of]. rewrite Hfound. cbn [located].
  do 2 run_step. rewrite Hfile. cbn [returned final trace].
  destruct w; reflexivity.
Qed.

(** A save ends in exactly one of three ways, always with one message
    and never with an exception or a change to the session map.  The
    resolver finds nothing: the retry prompt, and nothing else happens.
    The location cannot be added (the store cannot be loaded or indexed,
    or already has it): the error or the "already saved" message, no
    write, and the world as it was.  Otherwise the location is appended
    to the user's list and the user gets the whole list. *)
Theorem save_location_outcomes (m : Message) (w : World) :
  let user_id := pretty (chat_id m) in
  let location := PyStr.strip (text m) in
  let o := run env (save_location str_other m) w in
  let say msg := SendMessage (chat_id m) msg None None in
  returned o = Ok tt /\ user_states (final o) = user_states w /\
  ((not_found env (text m) /\
    trace o = [Geocode (text m);
               SendMessage (chat_id m) retry_text (Some try_again_markup) None] /\
    final o = w) \/
   (~ not_found env (text m) /\
    (sent (trace o) = [say save_error_text] \/
     sent (trace o) = [say (duplicate_text location)]) /\
    writes (trace o) = [] /\ final o = w) \/
   (~ not_found env (text m) /\
    exists l,
      effective_locations (USER_DATA_FILE w) user_id = Some l /\
      existsb (Py.eq_str location) l = false /\
      sent (trace o) = [say (saved_text str_other (l ++ [JStr location]))] /\
      stored_locations (USER_DATA_FILE (final o)) user_id =
        Some (l ++ [JStr location])%list)).
Proof.
  cbv zeta.
  destruct (run_save_location_shape env str_other m w)
    as (tail & msg & markup & _ & _ & _ & Hst & _ & Hret).
  cbv zeta in Hst, Hret. split; [exact Hret |]. split; [exact Hst |].
  destruct (nominatim env (text m)) as [[loc |] | e] eqn:Hgeo.
  2: { left. assert (Hnf : not_found env (text m))
         by (intros loc H; congruence).
       rewrite (run_save_location_not_found env str_other m w Hnf). auto. }
  2: { left. assert (Hnf : not_found env (text m))
         by (intros loc H; congruence).
       rewrite (run_save_location_not_found env str_other m w Hnf). auto. }
  assert (Hfound : ~ not_found env (text m)) by (intros Hnf; exact (Hnf loc Hgeo)).
  right.
  destruct (USER_DATA_FILE w) as [| | data] eqn:Hfile.
  - right. split; [exact Hfound |]. exists [].
    assert (Hload : loaded_users (USER_DATA_FILE w) = Some [])
      by (by rewrite Hfile).
    rewrite (run_save_location_found env str_other m w loc [] [] Hgeo Hload
               eq_refl).
    cbv zeta. cbn [existsb trace final USER_DATA_FILE].
    rewrite run_load_user_data, Hfile. cbn [trace].
    split; [reflexivity |]. split; [reflexivity |]. split; [reflexivity |].
    apply stored_with_location.
  - left. split; [exact Hfound |].
    rewrite (run_save_location_unparsable m w loc Hgeo Hfile). auto.
  - rewrite (run_save_location_stored m w loc data Hgeo Hfile). cbv zeta.
    destruct (effective_locations (Stored data) (pretty (chat_id m)))
      as [l |] eqn:Heff.
    + destruct (effective_locations_inv _ _ _ Heff) as (d & Hload & Hlist).
      destruct data; try discriminate Hload. injection Hload as ->.
      rewrite (upsert_usable d _ _ l Hlist).
      destruct (existsb (Py.eq_str (PyStr.strip (text m))) l) eqn:Hin.
      * left. split; [exact Hfound |]. cbn. auto.
      * right. split; [exact Hfound |]. exists l.
        rewrite saved_items_with_location. cbn [trace final USER_DATA_FILE].
        split; [reflexivity |]. split; [exact Hin |].
        split; [reflexivity |]. apply stored_with_location.
    + left. split; [exact Hfound |].
      pose proof (upsert_unusable data (pretty (chat_id m))
                    (PyStr.strip (text m)) Heff) as Hno.
      destruct (upsert data _ _) as [[ud2 |] | e]; cbn.
      * destruct (Hno ud2 eq_refl).
      * auto.
      * auto.
Qed.

(** A file that is not JSON, or whose document is not a dictionary, is
    never overwritten: the save answers with the error message and the
    file stays as it was. *)
Theorem unloadable_store_is_left_alone (m : Message) (w : World)
    (loc : Location) :
  nominatim env (text m) = Ok (Some loc) ->
  loaded_users (USER_DATA_FILE w) = None ->
  let o := run env (save_location str_other m) w in
  sent (trace o) = [SendMessage (chat_id m) save_error_text None None] /\
  writes (trace o) = [] /\ final o = w.
Proof.
  intros Hgeo Hload. cbv zeta.
  destruct (USER_DATA_FILE w) as [| | data] eqn:Hfile;
    [discriminate Hload | |].
  - rewrite (run_save_location_unparsable m w loc Hgeo Hfile). auto.
  - rewrite (run_save_location_stored m w loc data Hgeo Hfile). cbv zeta.
    assert (Hshape : Py.is_dict data = false)
      by (destruct data; try reflexivity; discriminate Hload).
    destruct (upsert_non_dict data (pretty (chat_id m))
                (PyStr.strip (text m)) Hshape) as (e & ->).
    auto.
Qed.

End SaveOutcomes.

Lemma unloadable_store_witness :
  final (run Sample.env (save_location Sample.str_other Sample.message)
           corrupt_store) = corrupt_store.
Proof.
  exact (proj2 (proj2 (unloadable_store_is_left_alone Sample.env
                         Sample.str_other Sample.message corrupt_store
                         Sample.paris eq_refl eq_refl))).
Defined.

(** ** What a save keeps *)

Section SaveKeeps.
Context (env env2 : Env) (str_other : json -> string).

Lemma stored_locations_fields d user_id s :
  stored_locations (Stored (JObj d)) user_id = Some s ->
  Py.dict_get "locations" (fields_of d user_id) = Some (JArr s).
Proof.
  unfold stored_locations, fields_of.
  destruct (Py.dict_get user_id d) as [[| | | | | | record] |]; try discriminate.
  destruct (Py.dict_get "locations" record) as [[| | | | | l |] |];
    try discriminate.
  by intros [= ->].
Qed.

Lemma dict_keys_set k v d :
  map fst (Py.dict_set k v d) =
  if Py.dict_has k d then map fst d else (map fst d ++ [k])%list.
Proof.
  unfold Py.dict_has. induction d as [| [k0 v0] d IH]; cbn; [reflexivity |].
  destruct (String.eqb k k0) eqn:E; cbn; [reflexivity |].
  rewrite IH. by destruct (Py.dict_get k d).
Qed.

(** After a save over a usable store the file holds a dictionary that is
    the old one, or the old one with the location appended. *)
Lemma save_location_found_list m w loc d l :
  nominatim env (text m) = Ok (Some loc) ->
  loaded_users (USER_DATA_FILE w) = Some d ->
  Py.dict_get "locations" (fields_of d (pretty (chat_id m))) = Some (JArr l) ->
  let user_id := pretty (chat_id m) in
  let location := PyStr.strip (text m) in
  let o := run env (save_location str_other m) w in
  if existsb (Py.eq_str location) l then
    USER_DATA_FILE (final o) = Stored (JObj d) /\
    stored_locations (Stored (JObj d)) user_id = Some l /\
    writes (trace o) = [] /\ final o = w /\
    sent (trace o) =
      [SendMessage (chat_id m) (duplicate_text location) None None]
  else
    USER_DATA_FILE (final o) =
      Stored (JObj (with_location d user_id l location)).
Proof.
  intros Hfound Hload Hlist. cbv zeta.
  rewrite (run_save_location_found env str_other m w loc d l Hfound Hload Hlist).
  cbv zeta.
  destruct (existsb (Py.eq_str (PyStr.strip (text m))) l) eqn:Hin;
    cbn [final USER_DATA_FILE trace]; [| reflexivity].
  rewrite run_load_user_data.
  destruct (USER_DATA_FILE w) as [| | data] eqn:Hfile; cbn in Hload.
  - injection Hload as <-. cbn in Hlist. injection Hlist as <-.
    discriminate Hin.
  - discriminate Hload.
  - destruct data; try discriminate Hload. injection Hload as ->.
    cbn [final USER_DATA_FILE trace]. rewrite Hfile.
    repeat split; try reflexivity.
    unfold stored_locations. unfold fields_of in Hlist.
    destruct (Py.dict_get (pretty (chat_id m)) d) as [[] |] eqn:Hrec;
      try (cbn in Hlist; injection Hlist as <-; discriminate Hin).
    by rewrite Hlist.
Qed.

(** Saving a text whose trimmed form was saved before, however either
    text was padded, is answered with "already saved"; nothing is
    written and the world stays as it was. *)
Theorem padding_does_not_defeat_duplicates (m1 m2 : Message) (w : World)
    (loc1 loc2 : Location) (l : list json) :
  chat_id m1 = chat_id m2 ->
  PyStr.strip (text m1) = PyStr.strip (text m2) ->
  nominatim env (text m1) = Ok (Some loc1) ->
  nominatim env2 (text m2) = Ok (Some loc2) ->
  effective_locations (USER_DATA_FILE w) (pretty (chat_id m1)) = Some l ->
  let w1 := final (run env (save_location str_other m1) w) in
  let o := run env2 (save_location str_other m2) w1 in
  sent (trace o) =
    [SendMessage (chat_id m2) (duplicate_text (PyStr.strip (text m2)))
       None None] /\
  writes (trace o) = [] /\ final o = w1.
Proof.
  intros Hchat Hstrip H1 H2 Heff. cbv zeta.
  destruct (effective_locations_inv _ _ _ Heff) as (d & Hload & Hlist).
  destruct (save_location_found_after str_other env m1 w loc1 d l
              H1 Hload Hlist) as (d' & s & Hfile & Hs & Hin & _).
  cbv zeta in Hfile.
  set (w1 := final (run env (save_location str_other m1) w)) in *.
  assert (Hload' : loaded_users (USER_DATA_FILE w1) = Some d')
    by (by rewrite Hfile).
  rewrite Hchat in Hs. rewrite Hstrip in Hin.
  pose proof (stored_locations_fields _ _ _ Hs) as Hlist'.
  assert (Hrun := run_save_location_found env2 str_other m2 w1 loc2 d' s
                    H2 Hload' Hlist').
  cbv zeta in Hrun. rewrite Hin in Hrun. rewrite Hrun.
  rewrite run_load_user_data, Hfile. cbn [trace final].
  auto.
Qed.

Lemma fields_of_record d user_id record :
  Py.dict_get user_id d = Some (JObj record) -> fields_of d user_id = record.
Proof. unfold fields_of. by intros ->. Qed.

Lemma fields_of_no_record d user_id :
  (forall record, Py.dict_get user_id d <> Some (JObj record)) ->
  fields_of d user_id = default_fields.
Proof.
  unfold fields_of. intros Hnone.
  destruct (Py.dict_get user_id d) as [[| | | | | | record] |]; try reflexivity.
  destruct (Hnone record eq_refl).
Qed.

(** A save for one user leaves every other user's record and the order
    of the users as they were (a new user goes last).  A record of the
    user that is a dictionary keeps every field other than [locations];
    its list is the old one or the old one with the location at its
    end, and a record without a list under [locations] stays as it is.
    When the user has no record, or one that is not a dictionary, the
    record becomes the default profile with the location as the only
    entry of its list. *)
Theorem save_touches_one_list (m : Message) (w : World) (loc : Location)
    (d : list (string * json)) :
  nominatim env (text m) = Ok (Some loc) ->
  loaded_users (USER_DATA_FILE w) = Some d ->
  let user_id := pretty (chat_id m) in
  let location := PyStr.strip (text m) in
  let o := run env (save_location str_other m) w in
  exists d',
    USER_DATA_FILE (final o) = Stored (JObj d') /\
    (forall other, other <> user_id ->
       Py.dict_get other d' = Py.dict_get other d) /\
    (map fst d' = map fst d \/
     Py.dict_get user_id d = None /\
     map fst d' = (map fst d ++ [user_id])%list) /\
    (forall record, Py.dict_get user_id d = Some (JObj record) ->
       exists record',
         Py.dict_get user_id d' = Some (JObj record') /\
         (forall field, field <> "locations" ->
            Py.dict_get field record' = Py.dict_get field record) /\
         (forall l, Py.dict_get "locations" record = Some (JArr l) ->
            Py.dict_get "locations" record' = Some (JArr l) \/
            Py.dict_get "locations" record' =
              Some (JArr (l ++ [JStr location])%list)) /\
         ((forall l, Py.dict_get "locations" record <> Some (JArr l)) ->
            record' = record)) /\
    ((forall record, Py.dict_get user_id d <> Some (JObj record)) ->
       Py.dict_get user_id d' = Some (profile_with [JStr location])).
Proof.
  intros Hfound Hload. cbv zeta.
  destruct (effective_locations (USER_DATA_FILE w) (pretty (chat_id m)))
    as [l |] eqn:Heff.
  - destruct (effective_locations_inv _ _ _ Heff) as (d0 & Hload0 & Hlist).
    rewrite Hload in Hload0. injection Hload0 as <-.
    pose proof (save_location_found_list m w loc d l Hfound Hload Hlist)
      as Hsave. cbv zeta in Hsave.
    destruct (existsb (Py.eq_str (PyStr.strip (text m))) l) eqn:Hin.
    + destruct Hsave as (Hfile & Hs & _). exists d. rewrite Hfile.
      split; [reflexivity |]. split; [auto |]. split; [auto |]. split.
      * intros record Hrec. exists record. auto.
      * intros Hnone. rewrite (fields_of_no_record _ _ Hnone) in Hlist.
        injection Hlist as <-. discriminate Hin.
    + exists (with_location d (pretty (chat_id m)) l (PyStr.strip (text m))).
      rewrite Hsave. split; [reflexivity |]. split; [| split; [| split]].
      * intros other Hne. unfold with_location.
        apply dict_get_set_ne. congruence.
      * unfold with_location. rewrite dict_keys_set. unfold Py.dict_has.
        destruct (Py.dict_get (pretty (chat_id m)) d); auto.
      * intros record Hrec. unfold with_location.
        rewrite (fields_of_record _ _ _ Hrec) in Hlist |- *.
        rewrite dict_get_set_eq. eexists. split; [reflexivity |].
        split; [| split].
        -- intros field Hne. apply dict_get_set_ne. congruence.
        -- intros l0 Hl0. rewrite Hlist in Hl0. injection Hl0 as <-.
           right. apply dict_get_set_eq.
        -- intros Hno. destruct (Hno l Hlist).
      * intros Hnone. unfold with_location.
        rewrite (fields_of_no_record _ _ Hnone) in Hlist |- *.
        injection Hlist as <-. rewrite dict_get_set_eq. reflexivity.
  - destruct (USER_DATA_FILE w) as [| | data] eqn:Hfile;
      try discriminate Hload.
    { injection Hload as <-. discriminate Heff. }
    destruct data; try discriminate Hload. injection Hload as ->.
    rewrite (run_save_location_stored env str_other m w loc _ Hfound Hfile).
    cbv zeta.
    pose proof (upsert_unusable (JObj d) (pretty (chat_id m))
                  (PyStr.strip (text m)) Heff) as Hno.
    assert (Hrest :
      (forall other, other <> pretty (chat_id m) ->
         Py.dict_get other d = Py.dict_get other d) /\
      (map fst d = map fst d \/
       Py.dict_get (pretty (chat_id m)) d = None /\
       map fst d = (map fst d ++ [pretty (chat_id m)])%list) /\
      (forall record, Py.dict_get (pretty (chat_id m)) d = Some (JObj record) ->
         exists record',
           Py.dict_get (pretty (chat_id m)) d = Some (JObj record') /\
           (forall field, field <> "locations" ->
              Py.dict_get field record' = Py.dict_get field record) /\
           (forall l, Py.dict_get "locations" record = Some (JArr l) ->
              Py.dict_get "locations" record' = Some (JArr l) \/
              Py.dict_get "locations" record' =
                Some (JArr (l ++ [JStr (PyStr.strip (text m))])%list)) /\
           ((forall l, Py.dict_get "locations" record <> Some (JArr l)) ->
              record' = record)) /\
      ((forall record,
          Py.dict_get (pretty (chat_id m)) d <> Some (JObj record)) ->
         Py.dict_get (pretty (chat_id m)) d =
           Some (profile_with [JStr (PyStr.strip (text m))]))).
    { split; [auto |]. split; [auto |]. split.
      - intros record Hrec. exists record. auto.
      - intros Hnone. unfold effective_locations in Heff. cbn in Heff.
        rewrite (fields_of_no_record _ _ Hnone) in Heff. discriminate Heff. }
    exists d.
    destruct (upsert (JObj d) _ _) as [[ud2 |] | e];
      [destruct (Hno ud2 eq_refl) | |];
      cbn [final]; rewrite Hfile; (split; [reflexivity | exact Hrest]).
Qed.

Lemma occurrences_single s location :
  occurrences s [JStr location] = if String.eqb s location then 1%nat else 0%nat.
Proof.
  unfold occurrences. rewrite filter_cons. cbn [Py.eq_str].
  destruct (String.eqb s location); destruct (decide _); try reflexivity;
    congruence.
Qed.

(** A list of locations without a repeated string stays so under any
    save, and no location in it is lost. *)
Theorem save_keeps_locations_distinct (m : Message) (w : World)
    (loc : Location) (l : list json) :
  nominatim env (text m) = Ok (Some loc) ->
  effective_locations (USER_DATA_FILE w) (pretty (chat_id m)) = Some l ->
  no_duplicates l ->
  let o := run env (save_location str_other m) w in
  exists l',
    stored_locations (USER_DATA_FILE (final o)) (pretty (chat_id m)) = Some l' /\
    no_duplicates l' /\
    (forall s, occurrences s l <= occurrences s l')%nat /\
    occurrences (PyStr.strip (text m)) l' = 1%nat.
Proof.
  intros Hfound Heff Hdistinct. cbv zeta.
  destruct (effective_locations_inv _ _ _ Heff) as (d & Hload & Hlist).
  pose proof (save_location_found_list m w loc d l Hfound Hload Hlist)
    as Hsave. cbv zeta in Hsave.
  destruct (existsb (Py.eq_str (PyStr.strip (text m))) l) eqn:Hin.
  - destruct Hsave as (Hfile & Hs & _). exists l. rewrite Hfile.
    split; [exact Hs |]. split; [exact Hdistinct |]. split; [auto |].
    pose proof (Hdistinct (PyStr.strip (text m))) as Hle.
    assert (occurrences (PyStr.strip (text m)) l <> 0)%nat; [| lia].
    intros Hzero. apply existsb_exists in Hin as (x & Hx & Heq).
    unfold occurrences in Hzero. apply length_zero_iff_nil in Hzero.
    assert (Hmem : x ∈ filter (fun y => Py.eq_str (PyStr.strip (text m)) y = true) l).
    { apply list_elem_of_filter. split; [exact Heq |].
      by apply list_elem_of_In. }
    rewrite Hzero in Hmem. by apply not_elem_of_nil in Hmem.
  - exists (l ++ [JStr (PyStr.strip (text m))])%list. rewrite Hsave.
    split; [apply stored_with_location |].
    split; [| split].
    + intros s. rewrite occurrences_app, occurrences_single.
      destruct (String.eqb s (PyStr.strip (text m))) eqn:E.
      * apply String.eqb_eq in E. subst s.
        rewrite (occurrences_absent _ _ Hin). lia.
      * pose proof (Hdistinct s). lia.
    + intros s. rewrite occurrences_app. lia.
    + rewrite occurrences_app, occurrences_self.
      by rewrite (occurrences_absent _ _ Hin).
Qed.

End SaveKeeps.

Lemma padding_witness :
  let w1 := final (run Sample.env (save_location Sample.str_other Sample.message)
                     Sample.fresh) in
  final (run Sample.env (save_location Sample.str_other padded_again) w1) = w1.
Proof.
  exact (proj2 (proj2 (padding_does_not_defeat_duplicates Sample.env Sample.env
                         Sample.str_other Sample.message padded_again
                         Sample.fresh Sample.paris Sample.paris []
                         eq_refl eq_refl eq_refl eq_refl eq_refl))).
Defined.

Lemma save_touches_one_list_witness :
  exists d',
    USER_DATA_FILE
      (final (run Sample.env (save_location Sample.str_other Sample.message8)
                two_users)) = Stored (JObj d') /\
    Py.dict_get "7" d' = Some (profile_with [JStr "Rome"; JStr "Paris"]).
Proof.
  destruct (save_touches_one_list Sample.env Sample.str_other Sample.message8
              two_users Sample.paris _ eq_refl eq_refl)
    as (d' & Hfile & Hothers & _).
  exists d'. split; [exact Hfile |].
  rewrite (Hothers "7"); [reflexivity | discriminate].
Defined.

Example save_replaces_misshapen_record :
  USER_DATA_FILE
    (final (run Sample.env (save_location Sample.str_other Sample.message)
              Sample.misshapen)) =
  Stored (JObj [("7", profile_with [JStr "Paris"])]).
Proof. vm_compute. reflexivity. Qed.

Lemma save_keeps_distinct_witness :
  exists l',
    stored_locations
      (USER_DATA_FILE
         (final (run Sample.env (save_location Sample.str_other Sample.message)
                   two_users))) "7" = Some l' /\
    no_duplicates l'.
Proof.
  assert (Hdistinct : no_duplicates [JStr "Rome"; JStr "Paris"]).
  { intros s. unfold occurrences. rewrite !filter_cons, filter_nil.
    cbn [Py.eq_str].
    destruct (String.eqb s "Rome") eqn:E1; destruct (String.eqb s "Paris") eqn:E2;
      repeat destruct (decide _); cbn; try lia; try congruence.
    apply String.eqb_eq in E1. apply String.eqb_eq in E2. congruence. }
  destruct (save_keeps_locations_distinct Sample.env Sample.str_other
              Sample.message two_users Sample.paris _ eq_refl eq_refl Hdistinct)
    as (l' & Hs & Hd & _).
  exists l'. exact (conj Hs Hd).
Defined.

(** ** What an update reaches *)

Section Reach.
Context {rt : PyRuntime}.
Context (env : Env) (str_other : json -> string).

(** Handling an update of one chat never changes the step of another. *)
Theorem other_sessions_untouched (u : Update) (w : World) (chat : Z) :
  chat <> update_chat u ->
  user_states (final (run env (process_update str_other u) w)) !! chat =
  user_states w !! chat.
Proof.
  intros Hne. rewrite user_states_after.
  destruct u as [m | m | call]; cbn [transition update_chat] in *.
  - reflexivity.
  - destruct (decide _); [| reflexivity].
    by rewrite lookup_delete_ne.
  - cbv zeta. destruct (String.eqb (call_data call) "get_weather").
    + by rewrite lookup_insert_ne.
    + destruct (_ || _); [| reflexivity]. by rewrite lookup_insert_ne.
Qed.

Lemma file_ops_app (l1 l2 : list Op) :
  file_ops (l1 ++ l2) = (file_ops l1 ++ file_ops l2)%list.
Proof. apply filter_app. Qed.

Lemma save_location_found_loads m w loc :
  nominatim env (text m) = Ok (Some loc) ->
  exists rest,
    trace (run env (save_location str_other m) w) =
    Geocode (text m) :: PathExists :: rest.
Proof.
  intros Hfound. destruct (USER_DATA_FILE w) as [| | data] eqn:Hfile.
  - assert (Hload : loaded_users (USER_DATA_FILE w) = Some [])
      by (by rewrite Hfile).
    rewrite (run_save_location_found env str_other m w loc [] [] Hfound Hload
               eq_refl).
    cbv zeta. cbn [existsb trace]. rewrite run_load_user_data, Hfile.
    cbn. eauto.
  - rewrite (run_save_location_unparsable env str_other m w loc Hfound Hfile).
    cbn. eauto.
  - rewrite (run_save_location_stored env str_other m w loc data Hfound Hfile).
    cbv zeta. destruct (upsert data _ _) as [[ud2 |] | e]; cbn; eauto.
Qed.

(** The file is tested, read or written by exactly one kind of update:
    free text met while a location to save is awaited and found by the
    resolver.  No command, button press or other text reaches it. *)
Theorem file_reached_only_by_found_save (u : Update) (w : World) :
  file_ops (trace (run env (process_update str_other u) w)) <> [] <->
  exists m loc,
    u = TextMessage m /\
    user_states w !! chat_id m = Some waiting_for_save_location /\
    nominatim env (text m) = Ok (Some loc).
Proof.
  destruct u as [m | m | call]; cbn [process_update].
  - split; [intros H; by destruct H | intros (m' & loc & H & _); discriminate H].
  - destruct (decide (user_states w !! chat_id m =
                      Some waiting_for_weather_location)) as [Hw | Hw];
      [| destruct (decide (user_states w !! chat_id m =
                           Some waiting_for_save_location)) as [Hs | Hs]].
    + rewrite (run_text_awaiting_weather env str_other m w Hw). cbv zeta.
      destruct (run_fetch_weather_shape env str_other m w)
        as (tail & Htr & Hfile & _).
      cbv zeta in Htr. rewrite Htr. cbn [trace].
      change (StatesGet (chat_id m)
              :: (Geocode (text m) :: tail) ++ [StatesPop (chat_id m)])%list
        with ([StatesGet (chat_id m); Geocode (text m)]
              ++ tail ++ [StatesPop (chat_id m)])%list.
      rewrite !file_ops_app, Hfile. split; [intros H; by destruct H |].
      intros (m' & loc & [= <-] & Hs & _). rewrite Hw in Hs. discriminate Hs.
    + rewrite (run_text_awaiting_save env str_other m w Hs). cbv zeta.
      cbn [trace].
      destruct (nominatim env (text m)) as [[loc |] | e] eqn:Hgeo.
      * destruct (save_location_found_loads m w loc Hgeo) as (rest & ->).
        split; [eauto | intros _; cbn; discriminate].
      * assert (Hnf : not_found env (text m)) by (intros loc H; congruence).
        rewrite (run_save_location_not_found env str_other m w Hnf).
        split; [intros H; by destruct H |].
        intros (m' & loc & [= <-] & _ & H). congruence.
      * assert (Hnf : not_found env (text m)) by (intros loc H; congruence).
        rewrite (run_save_location_not_found env str_other m w Hnf).
        split; [intros H; by destruct H |].
        intros (m' & loc & [= <-] & _ & H). congruence.
    + rewrite (run_text_otherwise env str_other m w Hw Hs).
      split; [intros H; by destruct H |].
      intros (m' & loc & [= <-] & H & _). contradiction.
  - split; [| intros (m' & loc & H & _); discriminate H].
    intros H. exfalso. apply H. unfold callback_handlers, dispatch_callback.
    repeat match goal with
    | |- context [String.eqb (call_data call) ?c] =>
        destruct (String.eqb (call_data call) c)
    end; reflexivity.
Qed.

End Reach.

Lemma other_sessions_witness :
  user_states
    (final (run Sample.env
              (process_update Sample.str_other
                 (ButtonPress (Sample.press "get_weather")))
              {| user_states := {[ 8 := waiting_for_save_location ]};
                 USER_DATA_FILE := NoFile |})) !! 8 =
  Some waiting_for_save_location.
Proof.
  rewrite (other_sessions_untouched Sample.env Sample.str_other
             (ButtonPress (Sample.press "get_weather")) _ 8);
    [reflexivity | discriminate].
Defined.

(** ** The weather pipeline, whatever the collaborators answer *)

Ltac weather_leaf :=
  cbn; eexists; split; [reflexivity |];
  split; [cbn; rewrite ?Z.eqb_refl; reflexivity | cbn; lia].

Section WeatherPipeline.
Context {rt : PyRuntime}.
Context (env : Env) (str_other : json -> string).

(** The trace of [fetch_weather], whatever the collaborators answer. *)
Lemma run_fetch_weather_trace (m : Message) (w : World) :
  let o := run env (fetch_weather str_other m) w in
  returned o = Ok tt /\ final o = w /\
  (not_found env (text m) -> trace o = [Geocode (text m)]) /\
  (forall loc, nominatim env (text m) = Ok (Some loc) ->
     exists msgs,
       trace o = Geocode (text m)
                 :: RequestForecast (round2 (latitude loc))
                      (round2 (longitude loc)) :: msgs /\
       only_messages_to (chat_id m) msgs = true /\
       (1 <= length msgs <= 2)%nat).
Proof.
  cbv zeta.
  destruct (run_fetch_weather_shape env str_other m w)
    as (tail & Htr & _ & Hfin & Hret & _ & Hsilent).
  cbv zeta in Htr, Hfin, Hret.
  split; [exact Hret |]. split; [exact Hfin |]. split.
  - intros Hnf. rewrite Htr. apply Hsilent in Hnf.
    unfold fetch_weather in Htr. revert Htr. do 3 run_step. cbn [query_of].
    destruct (nominatim env (text m)) as [[loc |] | e] eqn:E; cbn [located].
    + intros _. exfalso. apply Hsilent in Hnf. exact (Hnf loc E).
    + cbn. by intros [= <-].
    + cbn. by intros [= <-].
  - intros loc Hgeo. clear tail Htr Hfin Hret Hsilent.
    unfold fetch_weather. do 3 run_step. cbn [query_of]. rewrite Hgeo.
    cbn [located]. run_step. rewrite run_get_weather.
    cbn [returned final trace].
    destruct (openweathermap env _ _) as [weather | e];
      [| destruct (is_RequestException e)]; cbn [returned final trace];
      try weather_leaf.
    destruct (Py.is_None weather); [weather_leaf |].
    unfold report_forecast. do 2 run_step.
    destruct (Py.get weather "list" (JArr [])) as [data | e];
      cbn [returned final trace]; [| weather_leaf].
    destruct (Py.truthy data); cbn [negb]; [| weather_leaf].
    do 2 run_step.
    destruct (Py.first data) as [entry | e];
      cbn [returned final trace]; [| weather_leaf].
    do 2 run_step.
    destruct (Py.get entry "weather" (JArr [])) as [info | e];
      cbn [returned final trace]; [| weather_leaf].
    destruct (Py.truthy info); cbn [negb]; [| weather_leaf].
    do 2 run_step.
    destruct (Py.first info) as [info0 | e];
      cbn [returned final trace]; [| weather_leaf].
    do 2 run_step.
    destruct (Py.get info0 "description" (JStr "Unknown")) as [description | e];
      cbn [returned final trace]; [| weather_leaf].
    do 2 run_step.
    destruct (Py.get entry "main" (JObj [])) as [main | e];
      cbn [returned final trace]; [| weather_leaf].
    do 2 run_step.
    destruct (Py.get main "temp" (JStr "N/A")) as [temp | e];
      cbn [returned final trace]; [| weather_leaf].
    do 2 run_step.
    destruct (Py.capitalize description) as [capitalized | e];
      cbn [returned final trace]; weather_leaf.
Qed.

(** [fetch_weather] never raises and changes nothing.  When the
    resolver finds nothing it stops after the one geocoder query.
    Otherwise it asks the weather service once, for the rounded
    coordinates, and then only sends messages: one or two, all to the
    chat the text came from. *)
Theorem fetch_weather_trace (m : Message) (w : World) :
  let o := run env (fetch_weather str_other m) w in
  returned o = Ok tt /\ final o = w /\
  (not_found env (text m) -> trace o = [Geocode (text m)]) /\
  (forall loc, nominatim env (text m) = Ok (Some loc) ->
     exists msgs,
       trace o = Geocode (text m)
                 :: RequestForecast (round2 (latitude loc))
                      (round2 (longitude loc)) :: msgs /\
       only_messages_to (chat_id m) msgs = true /\
       (1 <= length msgs <= 2)%nat).
Proof. exact (run_fetch_weather_trace m w). Qed.

End WeatherPipeline.

Lemma fetch_weather_trace_witness :
  trace (run Sample.env (fetch_weather Sample.str_other Sample.atlantis)
           Sample.asking) = [Geocode "Atlantis"] /\
  exists msgs,
    trace (run Sample.sunny_env (fetch_weather Sample.str_other Sample.message)
             Sample.asking) =
    Geocode " Paris " :: RequestForecast (4886 # 100) (232 # 100) :: msgs.
Proof.
  split.
  - destruct (fetch_weather_trace Sample.env Sample.str_other Sample.atlantis
                Sample.asking) as (_ & _ & Hnf & _).
    apply Hnf. intros loc H. discriminate H.
  - destruct (fetch_weather_trace Sample.sunny_env Sample.str_other
                Sample.message Sample.asking) as (_ & _ & _ & Hfound).
    destruct (Hfound Sample.paris eq_refl) as (msgs & Htr & _).
    exists msgs. exact Htr.
Defined.

(** ** Recipients and button presses *)

Section Recipients.
Context {rt : PyRuntime}.
Context (env : Env) (str_other : json -> string).

Lemma all_sent_to_app chat (l1 l2 : list Op) :
  all_sent_to chat (l1 ++ l2) = all_sent_to chat l1 && all_sent_to chat l2.
Proof. apply forallb_app. Qed.

Lemma all_sent_to_sent chat (tr : list Op) :
  all_sent_to chat tr = all_sent_to chat (sent tr).
Proof.
  unfold sent. induction tr as [| o tr IH]; [reflexivity |].
  rewrite filter_cons. destruct (decide (is_send o)) as [H | H];
    unfold all_sent_to in *; cbn [forallb]; rewrite IH; [reflexivity |].
  destruct o; try reflexivity. destruct H. exact I.
Qed.

Lemma only_messages_all_sent chat (tr : list Op) :
  only_messages_to chat tr = true -> all_sent_to chat tr = true.
Proof.
  induction tr as [| o tr IH]; [reflexivity |]. cbn.
  destruct o; try discriminate.
  intros H. apply andb_true_iff in H as [-> Htr]. exact (IH Htr).
Qed.

(** Whatever is sent while an update is handled goes to the chat the
    update came from. *)
Theorem messages_go_to_the_sender (u : Update) (w : World) :
  all_sent_to (update_chat u)
    (trace (run env (process_update str_other u) w)) = true.
Proof.
  destruct u as [m | m | call]; cbn [process_update update_chat].
  - cbn. by rewrite Z.eqb_refl.
  - destruct (decide (user_states w !! chat_id m =
                      Some waiting_for_weather_location)) as [Hw | Hw];
      [| destruct (decide (user_states w !! chat_id m =
                           Some waiting_for_save_location)) as [Hs | Hs]].
    + rewrite (run_text_awaiting_weather env str_other m w Hw). cbv zeta.
      cbn [trace].
      destruct (run_fetch_weather_trace env str_other m w)
        as (_ & _ & Hnone & Hsome).
      destruct (nominatim env (text m)) as [[loc |] | e] eqn:Hgeo.
      * destruct (Hsome loc eq_refl) as (msgs & -> & Honly & _).
        change (StatesGet (chat_id m)
                :: (Geocode (text m) :: RequestForecast (round2 (latitude loc))
                      (round2 (longitude loc)) :: msgs)
                   ++ [StatesPop (chat_id m)])%list
          with ([StatesGet (chat_id m); Geocode (text m);
                 RequestForecast (round2 (latitude loc)) (round2 (longitude loc))]
                ++ msgs ++ [StatesPop (chat_id m)])%list.
        rewrite !all_sent_to_app, (only_messages_all_sent _ _ Honly).
        reflexivity.
      * rewrite Hnone; [reflexivity |]. intros loc H. congruence.
      * rewrite Hnone; [reflexivity |]. intros loc H. congruence.
    + rewrite (run_text_awaiting_save env str_other m w Hs). cbv zeta.
      cbn [trace].
      destruct (run_save_location_shape env str_other m w)
        as (tail & msg & markup & Htr & _ & Hsent & _).
      cbv zeta in Htr. rewrite Htr.
      change (StatesGet (chat_id m)
              :: (Geocode (text m) :: tail) ++ [StatesPop (chat_id m)])%list
        with ([StatesGet (chat_id m); Geocode (text m)]
              ++ tail ++ [StatesPop (chat_id m)])%list.
      rewrite !all_sent_to_app, (all_sent_to_sent _ tail), Hsent. cbn.
      by rewrite Z.eqb_refl.
    + rewrite (run_text_otherwise env str_other m w Hw Hs). cbn.
      by rewrite Z.eqb_refl.
  - unfold callback_handlers, dispatch_callback.
    repeat match goal with
    | |- context [String.eqb (call_data call) ?c] =>
        destruct (String.eqb (call_data call) c)
    end; cbn; rewrite ?Z.eqb_refl; reflexivity.
Qed.

(** A press on a button with a registered handler is always answered:
    the handler's last operation is the one [answer_callback_query] for
    the press, after at least one message, and the file is left alone.
    A press with any other data does nothing at all. *)
Theorem button_press_is_answered (call : CallbackQuery) (w : World) :
  let o := run env (process_update str_other (ButtonPress call)) w in
  (In (call_data call) (map fst callback_handlers) ->
     last (trace o) = Some (AnswerCallbackQuery (call_id call)) /\
     filter is_answer (trace o) = [AnswerCallbackQuery (call_id call)] /\
     sent (trace o) <> [] /\
     USER_DATA_FILE (final o) = USER_DATA_FILE w) /\
  (~ In (call_data call) (map fst callback_handlers) ->
     o = {| trace := []; final := w; returned := Ok tt |}).
Proof.
  cbv zeta. cbn [process_update]. split.
  - cbn. intros Hin.
    repeat (destruct Hin as [<- | Hin];
            [cbn; repeat split; discriminate |]).
    destruct Hin.
  - intros Hout. unfold callback_handlers, dispatch_callback.
    repeat match goal with
    | |- context [String.eqb (call_data call) ?c] =>
        destruct (String.eqb (call_data call) c) eqn:?
    end; try reflexivity;
    exfalso; apply Hout;
    repeat match goal with
    | H : String.eqb (call_data call) _ = true |- _ =>
        apply String.eqb_eq in H; rewrite H
    end; cbn; tauto.
Qed.

End Recipients.

Lemma button_press_witness :
  last (trace (run Sample.env
                 (process_update Sample.str_other
                    (ButtonPress (Sample.press "weather_alerts")))
                 Sample.fresh)) = Some (AnswerCallbackQuery "q1") /\
  run Sample.env
    (process_update Sample.str_other (ButtonPress (Sample.press "stale")))
    Sample.fresh = {| trace := []; final := Sample.fresh; returned := Ok tt |}.
Proof.
  split.
  - destruct (button_press_is_answered Sample.env Sample.str_other
                (Sample.press "weather_alerts") Sample.fresh) as [Hknown _].
    apply Hknown. cbn. tauto.
  - destruct (button_press_is_answered Sample.env Sample.str_other
                (Sample.press "stale") Sample.fresh) as [_ Hunknown].
    apply Hunknown. cbn. intros H.
    repeat (destruct H as [H | H]; [discriminate H |]). exact H.
Defined.

(** ** Answers of the weather service that are not a forecast *)

Section WeatherFailures.
Context {rt : PyRuntime}.
Context (env : Env) (str_other : json -> string).
Context (m : Message) (w : World) (loc : Location).
Hypothesis Hgeo : nominatim env (text m) = Ok (Some loc).

Lemma run_fetch_weather_found :
  sent (trace (run env (fetch_weather str_other m) w)) =
  sent (trace (run env
    (try_except any_exception
       (let* weather :=
          lift (got_weather (openweathermap env (round2 (latitude loc))
                               (round2 (longitude loc)))) in
        if Py.is_None weather then send_message (chat_id m) no_weather_text
        else report_forecast str_other m weather)
       (unexpected_error m)) w)).
Proof.
  unfold fetch_weather. rewrite !run_try_except. cbv zeta.
  rewrite !run_bind, run_location_handler, run_lift. cbv zeta.
  cbn [returned final trace query_of]. rewrite Hgeo. cbn [located].
  rewrite run_bind, run_get_weather. cbv zeta.
  cbn [returned final trace]. unfold got_weather.
  destruct (openweathermap env _ _) as [weather | e];
    [| destruct (is_RequestException e)]; cbn [returned final trace].
  - destruct (run env _ w) as [tr fin [[] | e']]; reflexivity.
  - destruct (run env _ w) as [tr fin [[] | e']]; reflexivity.
  - reflexivity.
Qed.

(** With the location resolved: a request that fails, or a body that is
    JSON [null], is answered with "could not retrieve"; any other
    exception of the request, a body that is not a dictionary, and a
    forecast list whose first element is not a dictionary are answered
    with "unexpected error".  Each time that is the only message. *)
Theorem weather_failures_are_reported :
  let answer := openweathermap env (round2 (latitude loc))
                  (round2 (longitude loc)) in
  let out := sent (trace (run env (fetch_weather str_other m) w)) in
  let say msg := [SendMessage (chat_id m) msg None None] in
  ((answer = Err RequestException \/ answer = Ok JNull) ->
     out = say no_weather_text) /\
  (forall e, answer = Err e -> e <> RequestException ->
     out = say unexpected_text) /\
  (forall weather, answer = Ok weather -> weather <> JNull ->
     Py.is_dict weather = false -> out = say unexpected_text) /\
  (forall members data, answer = Ok (JObj members) ->
     Py.dict_get "list" members = Some data -> Py.truthy data = true ->
     (forall fields, Py.first data <> Ok (JObj fields)) ->
     out = say unexpected_text).
Proof.
  cbv zeta. rewrite run_fetch_weather_found.
  split; [| split; [| split]].
  - intros [-> | ->]; reflexivity.
  - intros e -> Hother. destruct e; try reflexivity. by destruct Hother.
  - intros weather -> Hnull Hshape.
    destruct weather; try reflexivity; [by destruct Hnull | discriminate Hshape].
  - intros members data -> Hlist Htruthy Hfirst.
    unfold report_forecast. cbn [got_weather lift bind Py.is_None Py.get].
    rewrite Hlist. cbn [lift bind]. rewrite Htruthy. cbn [negb].
    destruct (Py.first data) as [entry | e]; [| reflexivity].
    destruct entry; try reflexivity. destruct (Hfirst _ eq_refl).
Qed.

(** A first weather item without [description] is reported as
    "Unknown"; one whose description is not a string, or that is not a
    dictionary, ends in the "unexpected error" message. *)
Theorem description_edge_cases (members entry : list (string * json))
    (rest more : list json) (item : json) :
  openweathermap env (round2 (latitude loc)) (round2 (longitude loc)) =
    Ok (JObj members) ->
  Py.dict_get "list" members = Some (JArr (JObj entry :: rest)) ->
  Py.dict_get "weather" entry = Some (JArr (item :: more)) ->
  let out := sent (trace (run env (fetch_weather str_other m) w)) in
  (forall info main temp,
     item = JObj info -> Py.dict_get "description" info = None ->
     Py.dict_get "main" entry = Some (JObj main) ->
     Py.dict_get "temp" main = Some temp ->
     out = [SendMessage (chat_id m) "Here's the weather!" None None;
            SendMessage (chat_id m) (weather_text str_other "Unknown" temp)
              None (Some "Markdown")]) /\
  (forall info description,
     item = JObj info ->
     Py.dict_get "description" info = Some description ->
     (forall s, description <> JStr s) ->
     out = [SendMessage (chat_id m) unexpected_text None None]) /\
  (Py.is_dict item = false ->
     out = [SendMessage (chat_id m) unexpected_text None None]).
Proof.
  intros Hresp Hlist Hweather. cbv zeta. rewrite run_fetch_weather_found.
  rewrite Hresp. unfold report_forecast.
  cbn [got_weather lift bind Py.is_None Py.get]. rewrite Hlist.
  cbn [lift bind Py.truthy negb Py.first Py.get]. rewrite Hweather.
  cbn [lift bind Py.truthy negb Py.first].
  split; [| split].
  - intros info main temp -> Hdesc Hmain Htemp.
    cbn [Py.get lift bind]. rewrite Hdesc, Hmain.
    cbn [Py.get lift bind]. rewrite Htemp.
    cbn [lift bind Py.capitalize].
    rewrite (str_capitalize_ascii "Unknown" eq_refl). reflexivity.
  - intros info description -> Hdesc Hnot.
    cbn [Py.get lift bind]. rewrite Hdesc.
    destruct (Py.dict_get "main" entry) as [main |]; cbn [Py.get lift bind];
      [destruct main; try reflexivity; cbn [Py.get lift bind] |];
      destruct description; try reflexivity; by destruct (Hnot s).
  - intros Hshape. destruct item; try reflexivity. discriminate Hshape.
Qed.

End WeatherFailures.

Lemma weather_failures_witness :
  sent (trace (run Sample.env (fetch_weather Sample.str_other Sample.message)
                 Sample.asking)) =
    [SendMessage 7 no_weather_text None None] /\
  sent (trace (run listing_env (fetch_weather Sample.str_other Sample.message)
                 Sample.asking)) =
    [SendMessage 7 unexpected_text None None].
Proof.
  split.
  - destruct (weather_failures_are_reported Sample.env Sample.str_other
                Sample.message Sample.asking Sample.paris eq_refl)
      as (Hdown & _).
    apply Hdown. left. reflexivity.
  - destruct (weather_failures_are_reported listing_env Sample.str_other
                Sample.message Sample.asking _ eq_refl)
      as (_ & _ & Hshape & _).
    apply (Hshape (JArr [JStr "clear sky"])); [reflexivity | discriminate |
                                               reflexivity].
Defined.

Lemma description_edge_witness :
  sent (trace (run undescribed_env
                 (fetch_weather Sample.str_other Sample.message)
                 Sample.asking)) =
  [SendMessage 7 "Here's the weather!" None None;
   SendMessage 7 (weather_text Sample.str_other "Unknown" (JInt 21))
     None (Some "Markdown")].
Proof.
  destruct (description_edge_cases undescribed_env Sample.str_other
              Sample.message Sample.asking _ eq_refl undescribed _ _ _ _
              eq_refl eq_refl eq_refl) as (Hmissing & _).
  exact (Hmissing _ _ _ eq_refl eq_refl eq_refl eq_refl).
Defined.

(** ** Trimming *)

Section Trimming.

Lemma append_cons (c : ascii) (s t : string) :
  String c s ++ t = String c (s ++ t).
Proof. reflexivity. Qed.

Lemma append_nil_l (t : string) : "" ++ t = t.
Proof. reflexivity. Qed.

Lemma append_nil_r (s : string) : s ++ "" = s.
Proof.
  induction s as [| c s IH]; [reflexivity |]. by rewrite append_cons, IH.
Qed.

Lemma append_assoc (s1 s2 s3 : string) : (s1 ++ s2) ++ s3 = s1 ++ (s2 ++ s3).
Proof.
  induction s1 as [| c s1 IH]; [reflexivity |].
  by rewrite !append_cons, IH.
Qed.

Lemma rev_app_append (s1 s2 : string) :
  String.rev_app s1 s2 = String.rev s1 ++ s2.
Proof.
  unfold String.rev. revert s2.
  induction s1 as [| c s1 IH]; intros s2; simpl; [reflexivity |].
  rewrite (IH (String c s2)), (IH (String c "")), append_assoc. reflexivity.
Qed.

Lemma rev_cons (c : ascii) (s : string) :
  String.rev (String c s) = String.rev s ++ String c "".
Proof. unfold String.rev at 1. simpl. apply rev_app_append. Qed.

Lemma rev_append (s1 s2 : string) :
  String.rev (s1 ++ s2) = String.rev s2 ++ String.rev s1.
Proof.
  induction s1 as [| c s1 IH].
  - by rewrite append_nil_l, append_nil_r.
  - by rewrite append_cons, !rev_cons, IH, append_assoc.
Qed.

Lemma rev_involutive (s : string) : String.rev (String.rev s) = s.
Proof.
  induction s as [| c s IH]; [reflexivity |].
  by rewrite rev_cons, rev_append, IH.
Qed.

Lemma length_append (s t : string) :
  String.length (s ++ t) = (String.length s + String.length t)%nat.
Proof.
  induction s as [| c s IH]; [reflexivity |].
  rewrite append_cons. simpl. by rewrite IH.
Qed.

Section Skipping.
Variable p1 : ascii -> bool.
Variable p2 : ascii -> ascii -> bool.
Variable p3 : ascii -> ascii -> ascii -> bool.

Lemma skip_fixed s :
  PyStr.starts p1 p2 p3 s = false -> PyStr.skip p1 p2 p3 s = s.
Proof.
  destruct s as [| a [| b [| c s3]]]; simpl; try reflexivity.
  - rewrite orb_false_r. by intros ->.
  - intros H. apply orb_false_iff in H as [-> H].
    rewrite orb_false_r in H. by rewrite H.
  - intros H. apply orb_false_iff in H as [-> H].
    apply orb_false_iff in H as [-> ->]. reflexivity.
Qed.

Lemma skip_bounded n s :
  (String.length s <= n)%nat ->
  PyStr.starts p1 p2 p3 (PyStr.skip p1 p2 p3 s) = false /\
  (exists t, s = t ++ PyStr.skip p1 p2 p3 s) /\
  (PyStr.only p1 p2 p3 s = true -> PyStr.skip p1 p2 p3 s = "").
Proof.
  revert s. induction n as [| n IH]; intros s Hn.
  - destruct s; [| simpl in Hn; lia]. simpl. split; [reflexivity |].
    split; [by exists "" | reflexivity].
  - destruct s as [| a s1]; [simpl; split; [reflexivity |];
                             split; [by exists "" | reflexivity] |].
    simpl in Hn. simpl. destruct (p1 a) eqn:E1.
    { destruct (IH s1 ltac:(lia)) as (H1 & (t & H2) & H3).
      split; [exact H1 |]. split; [| exact H3].
      exists (String a t). rewrite append_cons. by rewrite <- H2. }
    destruct s1 as [| b s2].
    { simpl. rewrite E1. split; [reflexivity |].
      split; [by exists "" | discriminate]. }
    simpl in Hn. destruct (p2 a b) eqn:E2.
    { destruct (IH s2 ltac:(lia)) as (H1 & (t & H2) & H3).
      split; [exact H1 |]. split; [| exact H3].
      exists (String a (String b t)). rewrite !append_cons. by rewrite <- H2. }
    destruct s2 as [| c s3].
    { simpl. rewrite E1, E2. split; [reflexivity |].
      split; [by exists "" | discriminate]. }
    simpl in Hn. destruct (p3 a b c) eqn:E3.
    { destruct (IH s3 ltac:(lia)) as (H1 & (t & H2) & H3).
      split; [exact H1 |]. split; [| exact H3].
      exists (String a (String b (String c t))). rewrite !append_cons.
      by rewrite <- H2. }
    simpl. rewrite E1, E2, E3. split; [reflexivity |].
    split; [by exists "" | discriminate].
Qed.

Lemma skip_starts s : PyStr.starts p1 p2 p3 (PyStr.skip p1 p2 p3 s) = false.
Proof. exact (proj1 (skip_bounded (String.length s) s (le_n _))). Qed.

Lemma skip_suffix s : exists t, s = t ++ PyStr.skip p1 p2 p3 s.
Proof. exact (proj1 (proj2 (skip_bounded (String.length s) s (le_n _)))). Qed.

Lemma skip_only s :
  PyStr.only p1 p2 p3 s = true -> PyStr.skip p1 p2 p3 s = "".
Proof. exact (proj2 (proj2 (skip_bounded (String.length s) s (le_n _)))). Qed.

Lemma starts_append s t :
  PyStr.starts p1 p2 p3 (s ++ t) = false -> PyStr.starts p1 p2 p3 s = false.
Proof.
  destruct s as [| a [| b [| c s3]]]; try reflexivity;
    rewrite ?append_cons; simpl.
  - intros H. apply orb_false_iff in H as [-> _]. reflexivity.
  - rewrite append_nil_l. intros H. apply orb_false_iff in H as [-> H].
    apply orb_false_iff in H as [-> _]. reflexivity.
  - intros H. exact H.
Qed.

End Skipping.

(** [strip] leaves a text that neither starts nor ends with whitespace;
    trimming twice is trimming once; a trimmed text is left as it is
    and a blank one becomes empty. *)
Lemma strip_trimmed s : trimmed (PyStr.strip s).
Proof.
  unfold PyStr.strip, PyStr.rstrip, trimmed, leading_space, trailing_space.
  split.
  - destruct (skip_suffix PyStr.is_space (fun b a => PyStr.is_space2 a b)
                (fun c b a => PyStr.is_space3 a b c)
                (String.rev (PyStr.lstrip s))) as (t & Ht).
    apply (f_equal String.rev) in Ht.
    rewrite rev_involutive, rev_append in Ht.
    apply (starts_append _ _ _ _ (String.rev t)). rewrite <- Ht.
    apply skip_starts.
  - rewrite rev_involutive. apply skip_starts.
Qed.

Lemma strip_fixed s : trimmed s -> PyStr.strip s = s.
Proof.
  intros [Hhead Hlast]. unfold PyStr.strip, PyStr.rstrip, PyStr.lstrip.
  rewrite (skip_fixed _ _ _ s Hhead), (skip_fixed _ _ _ _ Hlast).
  apply rev_involutive.
Qed.

Lemma strip_idempotent s : PyStr.strip (PyStr.strip s) = PyStr.strip s.
Proof. apply strip_fixed, strip_trimmed. Qed.

Lemma strip_blank s : blank s = true -> PyStr.strip s = "".
Proof.
  intros H. unfold PyStr.strip, PyStr.lstrip.
  by rewrite (skip_only _ _ _ s H).
Qed.

End Trimming.

Section StoredStrings.
Context (env : Env) (str_other : json -> string).

(** The string a save appends neither starts nor ends with whitespace
    and is its own trimmed form.  Blank text is not refused by
    [save_location]: when the resolver resolves it, the empty string is
    what gets stored. *)
Theorem stored_location_is_trimmed (m : Message) (w : World) (loc : Location)
    (l : list json) :
  nominatim env (text m) = Ok (Some loc) ->
  effective_locations (USER_DATA_FILE w) (pretty (chat_id m)) = Some l ->
  existsb (Py.eq_str (PyStr.strip (text m))) l = false ->
  let o := run env (save_location str_other m) w in
  exists location,
    stored_locations (USER_DATA_FILE (final o)) (pretty (chat_id m)) =
      Some (l ++ [JStr location])%list /\
    trimmed location /\
    PyStr.strip location = location /\
    (blank (text m) = true -> location = "").
Proof.
  intros Hfound Heff Hnew. cbv zeta.
  destruct (effective_locations_inv _ _ _ Heff) as (d & Hload & Hlist).
  pose proof (save_location_found_list env str_other m w loc d l
                Hfound Hload Hlist) as Hsave.
  cbv zeta in Hsave. rewrite Hnew in Hsave.
  exists (PyStr.strip (text m)). rewrite Hsave.
  split; [apply stored_with_location |].
  split; [apply strip_trimmed |].
  split; [apply strip_idempotent | apply strip_blank].
Qed.

End StoredStrings.

Lemma stored_trimmed_witness :
  stored_locations
    (USER_DATA_FILE
       (final (run lenient_env (save_location Sample.str_other blank_message)
                 Sample.fresh))) "7" = Some [JStr ""].
Proof.
  destruct (stored_location_is_trimmed lenient_env Sample.str_other
              blank_message Sample.fresh _ [] eq_refl eq_refl eq_refl)
    as (location & Hs & _ & _ & Hblank).
  rewrite (Hblank eq_refl) in Hs. exact Hs.
Defined.

(** ** Rounding *)

Section Rounding.

(** A coordinate that is a number of hundredths is left as it is, so
    rounding a rounded coordinate again changes nothing. *)
Lemma round2_hundredths (k : Z) : round2 (k # 100) = k # 100.
Proof.
  unfold round2. cbn [Qnum Qden].
  replace (100 * k) with (k * 100) by lia.
  rewrite Z.div_mul, Z.mod_mul by lia. reflexivity.
Qed.

Lemma round2_idempotent (x : Q) : round2 (round2 x) = round2 x.
Proof.
  destruct (round2_close x) as (k & -> & _). apply round2_hundredths.
Qed.

(** Rounding treats a negative coordinate as the mirror image of the
    positive one: west and south are rounded like east and north. *)
Lemma round2_opp (x : Q) : round2 (- x) = (- round2 x)%Q.
Proof.
  destruct x as [n d]. unfold round2, Qopp. cbn [Qnum Qden].
  pose proof (Z.div_mod (100 * n) (Z.pos d) ltac:(lia)) as Hdm.
  pose proof (Z.mod_pos_bound (100 * n) (Z.pos d) ltac:(lia)) as Hr.
  set (q := 100 * n / Z.pos d) in *.
  set (r := (100 * n) mod Z.pos d) in *.
  destruct (Z.eq_dec r 0) as [Hz | Hnz].
  - assert (Hq : 100 * - n / Z.pos d = - q /\ (100 * - n) mod Z.pos d = 0).
    { symmetry in Hdm.
      assert (H : 100 * - n = Z.pos d * - q + 0) by lia.
      split; [symmetry; eapply Z.div_unique_pos | symmetry; eapply Z.mod_unique_pos];
        try exact H; lia. }
    destruct Hq as [-> ->]. rewrite Hz. cbn [Z.mul Z.compare].
    reflexivity.
  - assert (Hq : 100 * - n / Z.pos d = - q - 1 /\
                 (100 * - n) mod Z.pos d = Z.pos d - r).
    { assert (H : 100 * - n = Z.pos d * (- q - 1) + (Z.pos d - r)) by lia.
      split; [symmetry; eapply Z.div_unique_pos | symmetry; eapply Z.mod_unique_pos];
        try exact H; lia. }
    destruct Hq as [-> ->].
    destruct (2 * r ?= Z.pos d) eqn:Hc;
      [apply Z.compare_eq in Hc | rewrite Z.compare_lt_iff in Hc
       | rewrite Z.compare_gt_iff in Hc].
    + replace (2 * (Z.pos d - r) ?= Z.pos d) with Eq
        by (symmetry; apply Z.compare_eq_iff; lia).
      replace (- q - 1) with (- (q + 1)) by lia.
      rewrite Z.even_opp, Z.even_add. change (Z.even 1) with false.
      destruct (Z.even q); cbn; f_equal; lia.
    + replace (2 * (Z.pos d - r) ?= Z.pos d) with Gt
        by (symmetry; apply Z.compare_gt_iff; lia).
      f_equal. lia.
    + replace (2 * (Z.pos d - r) ?= Z.pos d) with Lt
        by (symmetry; apply Z.compare_lt_iff; lia).
      f_equal. lia.
Qed.

End Rounding.

(** Rounding a coordinate is stable and symmetric: a rounded value is
    not moved by rounding it again, and the negative of a coordinate is
    rounded to the negative of its rounding. *)
Theorem round2_stable_and_symmetric (x : Q) :
  round2 (round2 x) = round2 x /\ round2 (- x) = (- round2 x)%Q.
Proof. split; [apply round2_idempotent | apply round2_opp]. Qed.

(** ** Calls to the collaborators *)

Section Calls.
Context {rt : PyRuntime}.
Context (env : Env) (str_other : json -> string).

Lemma save_location_no_forecast m w :
  filter is_forecast (trace (run env (save_location str_other m) w)) = [].
Proof.
  destruct (nominatim env (text m)) as [[loc |] | e] eqn:Hgeo.
  2, 3: rewrite (run_save_location_not_found env str_other m w);
        [reflexivity | intros loc H; congruence].
  destruct (USER_DATA_FILE w) as [| | data] eqn:Hfile.
  - assert (Hload : loaded_users (USER_DATA_FILE w) = Some [])
      by (by rewrite Hfile).
    rewrite (run_save_location_found env str_other m w loc [] [] Hgeo Hload
               eq_refl).
    cbv zeta. cbn [existsb trace]. rewrite run_load_user_data, Hfile.
    reflexivity.
  - by rewrite (run_save_location_unparsable env str_other m w loc Hgeo Hfile).
  - rewrite (run_save_location_stored env str_other m w loc data Hgeo Hfile).
    cbv zeta. destruct (upsert data _ _) as [[ud2 |] | e]; reflexivity.
Qed.

(** The geocoder is asked only for free text met in an awaiting step,
    once and with the text as typed; the weather service only for such
    text in the weather step once the resolver has found it, once and
    with the rounded coordinates.  Commands, button presses and text
    from an idle user cause no call at all. *)
Theorem collaborators_are_called_on_awaited_text (u : Update) (w : World) :
  let tr := trace (run env (process_update str_other u) w) in
  (forall m, u = TextMessage m ->
     user_states w !! chat_id m = Some waiting_for_weather_location \/
     user_states w !! chat_id m = Some waiting_for_save_location ->
     filter is_geocode tr = [Geocode (text m)]) /\
  (forall m loc, u = TextMessage m ->
     user_states w !! chat_id m = Some waiting_for_weather_location ->
     nominatim env (text m) = Ok (Some loc) ->
     filter is_forecast tr =
       [RequestForecast (round2 (latitude loc)) (round2 (longitude loc))]) /\
  ((forall m, u = TextMessage m ->
      user_states w !! chat_id m <> Some waiting_for_weather_location /\
      user_states w !! chat_id m <> Some waiting_for_save_location) ->
   filter is_geocode tr = [] /\ filter is_forecast tr = []) /\
  ((forall m loc, u = TextMessage m ->
      user_states w !! chat_id m = Some waiting_for_weather_location ->
      nominatim env (text m) <> Ok (Some loc)) ->
   filter is_forecast tr = []).
Proof.
  cbv zeta. destruct u as [m | m | call]; cbn [process_update].
  - split; [intros m' H; discriminate H |].
    split; [intros m' loc H; discriminate H |]. auto.
  - destruct (decide (user_states w !! chat_id m =
                      Some waiting_for_weather_location)) as [Hw | Hw];
      [| destruct (decide (user_states w !! chat_id m =
                           Some waiting_for_save_location)) as [Hs | Hs]].
    + rewrite (run_text_awaiting_weather env str_other m w Hw). cbv zeta.
      cbn [trace].
      destruct (run_fetch_weather_trace env str_other m w)
        as (_ & _ & Hnone & Hsome).
      assert (Hmsgs : forall chat msgs, only_messages_to chat msgs = true ->
                filter is_geocode msgs = [] /\ filter is_forecast msgs = []).
      { intros chat msgs. induction msgs as [| o msgs IH]; [auto |].
        intros H. cbn in H. destruct o; try discriminate H.
        apply andb_true_iff in H as [_ H].
        destruct (IH H) as [H1 H2].
        split; (rewrite filter_cons_False; [assumption | cbn; auto]). }
      destruct (nominatim env (text m)) as [[loc |] | e] eqn:Hgeo.
      * destruct (Hsome loc eq_refl) as (msgs & -> & Honly & _).
        destruct (Hmsgs _ _ Honly) as [Hg Hf].
        change (StatesGet (chat_id m)
                :: (Geocode (text m) :: RequestForecast (round2 (latitude loc))
                      (round2 (longitude loc)) :: msgs)
                   ++ [StatesPop (chat_id m)])%list
          with ([StatesGet (chat_id m); Geocode (text m);
                 RequestForecast (round2 (latitude loc)) (round2 (longitude loc))]
                ++ msgs ++ [StatesPop (chat_id m)])%list.
        rewrite !filter_app, Hg, Hf.
        split; [intros m' [= <-] _; reflexivity |].
        split; [intros m' loc' [= <-] _ H; rewrite Hgeo in H;
                injection H as <-; reflexivity |].
        split.
        -- intros H. destruct (H m eq_refl) as [H1 _]. contradiction.
        -- intros H. destruct (H m loc eq_refl Hw Hgeo).
      * rewrite Hnone by (intros loc H; congruence).
        split; [intros m' [= <-] _; reflexivity |].
        split; [intros m' loc' [= <-] _ H; congruence |].
        split; [| auto].
        intros H. destruct (H m eq_refl) as [H1 _]. contradiction.
      * rewrite Hnone by (intros loc H; congruence).
        split; [intros m' [= <-] _; reflexivity |].
        split; [intros m' loc' [= <-] _ H; congruence |].
        split; [| auto].
        intros H. destruct (H m eq_refl) as [H1 _]. contradiction.
    + rewrite (run_text_awaiting_save env str_other m w Hs). cbv zeta.
      cbn [trace].
      pose proof (save_location_no_forecast m w) as Hnf.
      destruct (run_save_location_shape env str_other m w)
        as (tail & msg & markup & Htr & Hgeo & _).
      cbv zeta in Htr. rewrite Htr in *.
      change (StatesGet (chat_id m)
              :: (Geocode (text m) :: tail) ++ [StatesPop (chat_id m)])%list
        with ([StatesGet (chat_id m)] ++ (Geocode (text m) :: tail)
              ++ [StatesPop (chat_id m)])%list.
      rewrite !filter_app, Hnf.
      change (filter is_geocode (Geocode (text m) :: tail))
        with (Geocode (text m) :: filter is_geocode tail).
      rewrite Hgeo.
      split; [intros m' [= <-] _; reflexivity |].
      split; [intros m' loc' [= <-] H; contradiction |].
      split; [| auto].
      intros H. destruct (H m eq_refl) as [_ H2]. contradiction.
    + rewrite (run_text_otherwise env str_other m w Hw Hs).
      split; [intros m' [= <-] [H | H]; contradiction |].
      split; [intros m' loc' [= <-] H; contradiction |]. auto.
  - unfold callback_handlers, dispatch_callback.
    split; [intros m' H; discriminate H |].
    split; [intros m' loc H; discriminate H |].
    repeat match goal with
    | |- context [String.eqb (call_data call) ?c] =>
        destruct (String.eqb (call_data call) c)
    end; auto.
Qed.

(** No update makes a handler raise: whatever the geocoder, the weather
    service and the file hold, [process_update] returns normally. *)
Theorem handlers_never_raise (u : Update) (w : World) :
  returned (run env (process_update str_other u) w) = Ok tt.
Proof.
  destruct u as [m | m | call]; cbn [process_update].
  - reflexivity.
  - destruct (decide (user_states w !! chat_id m =
                      Some waiting_for_weather_location)) as [Hw | Hw];
      [| destruct (decide (user_states w !! chat_id m =
                           Some waiting_for_save_location)) as [Hs | Hs]].
    + by rewrite (run_text_awaiting_weather env str_other m w Hw).
    + by rewrite (run_text_awaiting_save env str_other m w Hs).
    + by rewrite (run_text_otherwise env str_other m w Hw Hs).
  - unfold callback_handlers, dispatch_callback.
    repeat match goal with
    | |- context [String.eqb (call_data call) ?c] =>
        destruct (String.eqb (call_data call) c)
    end; reflexivity.
Qed.

End Calls.

Lemma collaborators_witness :
  filter is_geocode
    (trace (run Sample.sunny_env
              (process_update Sample.str_other (TextMessage Sample.message))
              Sample.asking)) = [Geocode " Paris "] /\
  filter is_forecast
    (trace (run Sample.sunny_env
              (process_update Sample.str_other (TextMessage Sample.message))
              Sample.asking)) = [RequestForecast (4886 # 100) (232 # 100)].
Proof.
  destruct (collaborators_are_called_on_awaited_text Sample.sunny_env
              Sample.str_other (TextMessage Sample.message) Sample.asking)
    as (Hgeo & Hforecast & _).
  split.
  - apply (Hgeo Sample.message eq_refl). left. reflexivity.
  - exact (Hforecast Sample.message Sample.paris eq_refl eq_refl eq_refl).
Defined.

(** ** The retry loop *)

Section RetryLoop.
Context {rt : PyRuntime}.
Context (env : Env) (str_other : json -> string).

Lemma run_updates_app history1 history2 w :
  run_updates str_other (history1 ++ history2) w =
  run_updates str_other history2 (run_updates str_other history1 w).
Proof.
  revert w. induction history1 as [| [e u] rest IH]; intros w; cbn;
    [reflexivity | apply IH].
Qed.

(** One round: the text is not found, the user presses Yes.  The user
    is awaiting a location to save again, the other sessions and the
    file are as before. *)
Lemma retry_round_returns m call w :
  user_states w !! chat_id m = Some waiting_for_save_location ->
  not_found env (text m) ->
  call_data call = "try_again_yes" ->
  chat_id (call_message call) = chat_id m ->
  run_updates str_other (retry_round env m call) w = w.
Proof.
  intros Hst Hnf Hyes Hchat. unfold retry_round. cbn [run_updates].
  rewrite (dispatch_try_again_yes str_other call Hyes).
  cbn [process_update].
  rewrite (run_text_awaiting_save env str_other m w Hst). cbv zeta.
  rewrite (run_save_location_not_found env str_other m w Hnf).
  cbn. rewrite Hchat. destruct w as [st fs]. cbn in *. f_equal.
  rewrite insert_delete_eq. by apply insert_id.
Qed.

(** The retry loop has no bound and no memory: after any number of
    failed attempts, each followed by a press on Yes, the world is
    exactly what it was before the first attempt - the user still
    awaits a location to save and the file is untouched. *)
Theorem retry_loop_has_no_bound (m : Message) (call : CallbackQuery)
    (w : World) (n : nat) :
  user_states w !! chat_id m = Some waiting_for_save_location ->
  not_found env (text m) ->
  call_data call = "try_again_yes" ->
  chat_id (call_message call) = chat_id m ->
  run_updates str_other (retry_rounds n env m call) w = w.
Proof.
  intros Hst Hnf Hyes Hchat. induction n as [| n IH]; [reflexivity |].
  cbn [retry_rounds]. rewrite run_updates_app.
  rewrite (retry_round_returns m call w Hst Hnf Hyes Hchat). exact IH.
Qed.

End RetryLoop.

Lemma retry_loop_witness :
  run_updates Sample.str_other
    (retry_rounds 3 Sample.env Sample.atlantis (Sample.press "try_again_yes"))
    Sample.saving = Sample.saving.
Proof.
  apply (retry_loop_has_no_bound Sample.env Sample.str_other Sample.atlantis
           (Sample.press "try_again_yes") Sample.saving 3);
    [reflexivity | intros loc H; discriminate H | reflexivity | reflexivity].
Defined.

Lemma save_outcomes_witness :
  sent (trace (run Sample.env (save_location Sample.str_other Sample.atlantis)
                 Sample.hollow)) =
    [SendMessage 7 retry_text (Some try_again_markup) None] /\
  final (run Sample.env (save_location Sample.str_other Sample.message)
           Sample.hollow) = Sample.hollow.
Proof.
  split.
  - destruct (save_location_outcomes Sample.env Sample.str_other
                Sample.atlantis Sample.hollow)
      as (_ & _ & [(_ & Htr & _) | [(Hfound & _) | (Hfound & _)]]).
    + rewrite Htr. reflexivity.
    + destruct Hfound. intros loc H. discriminate H.
    + destruct Hfound. intros loc H. discriminate H.
  - destruct (save_location_outcomes Sample.env Sample.str_other
                Sample.message Sample.hollow)
      as (_ & _ & [(Hnf & _) | [(_ & _ & _ & Hsame) | (_ & l & Heff & _)]]).
    + destruct (Hnf Sample.paris eq_refl).
    + exact Hsame.
    + discriminate Heff.
Defined.

Lemma file_reached_witness :
  file_ops (trace (run Sample.env
                     (process_update Sample.str_other
                        (TextMessage Sample.message)) Sample.saving)) <> [].
Proof.
  apply (file_reached_only_by_found_save Sample.env Sample.str_other
           (TextMessage Sample.message) Sample.saving).
  exists Sample.message, Sample.paris. repeat split.
Defined.
